(** * Reducers of the starter kit: a shallow embedding

    Two reducers are modelled:

    - the graph-screen reducer (a [handleActions] map with the handlers
      [CHANGE_DATE_FROM_VALUE] and [CHANGE_DATE_TO_VALUE], its initial state
      and the generator [randomDateTimePoints]), in [Module Graph];
    - [randomDotsScreenReducer] of the random-dots chart screen, in
      [Module RandomDots].

    JavaScript objects have identity: [moment] values, points, arrays and
    state objects live in a store and are passed by reference.  The graph
    reducer is therefore embedded over an explicit heap, so that [clone()],
    [_.clone] (a shallow copy) and plain sharing stay distinguishable. *)

From Stdlib Require Import ZArith Lia.
From stdpp Require Import base option list gmap strings.

Local Open Scope Z_scope.

Module Graph.

(** ** Time

    A [moment] is kept as its wall-clock time in milliseconds, counted from
    1970-01-01T00:00 of the zone the page runs in.  That zone is taken to
    have one UTC offset over the whole period (no clock change between the
    dates below), so that adding minutes, comparing and reading the hour and
    minute fields are plain arithmetic on this number.  [Module Zoned] has
    the generator with the zone spelled out, and what a clock change inside
    the period does to it. *)

Definition MS_PER_MINUTE : Z := 60000.
Definition MS_PER_HOUR : Z := 3600000.
Definition MS_PER_DAY : Z := 86400000.

(** Day number of a proleptic Gregorian calendar date, 1970-01-01 being 0. *)
Definition days_from_civil (y m d : Z) : Z :=
  let y' := if m <=? 2 then y - 1 else y in
  let era := y' / 400 in
  let yoe := y' - era * 400 in
  let mp := (m + 9) mod 12 in
  let doy := (153 * mp + 2) / 5 + d - 1 in
  let doe := yoe * 365 + yoe / 4 - yoe / 100 + doy in
  era * 146097 + doe - 719468.

(** [moment("YYYY-MM-DD")]: local midnight of that day. *)
Definition moment (y m d : Z) : Z := days_from_civil y m d * MS_PER_DAY.

(** [a.isBefore(b)], [a.isAfter(b)], [m.hours()], [m.minutes()] and
    [m.add("minutes", n)] on the millisecond value. *)
Definition isBefore (a b : Z) : bool := a <? b.
Definition isAfter (a b : Z) : bool := b <? a.
Definition hours (t : Z) : Z := (t / MS_PER_HOUR) mod 24.
Definition minutes (t : Z) : Z := (t / MS_PER_MINUTE) mod 60.
Definition add_minutes (t n : Z) : Z := t + n * MS_PER_MINUTE.

(** ** Module constants *)

Definition SAMPLE_VALUE_MAX : Z := 150.
Definition DATE_RANGE_MIN_VALUE : Z := moment 2010 5 1.
Definition DATE_RANGE_MAX_VALUE : Z := moment 2010 5 28.
Definition DATE_WINDOW_FROM_VALUE : Z := moment 2010 5 3.
Definition DATE_WINDOW_TO_VALUE : Z := moment 2010 5 5.
Definition SAMPLES_EVERY_MINUTE : Z := 5.

(** ** The object store

    A reference is an index into the store; allocation appends, so a fresh
    reference is the length of the store.  No operation of the reducer
    writes into an object that is already in the store. *)

Abbreviation loc := nat.

Inductive obj : Type :=
| OMoment (ms : Z)                        (* a moment.Moment *)
| OPoint (time : loc) (value : Z)         (* DateTimePoint { time, value } *)
| OArray (elems : list loc)               (* a JS array of points *)
| OState (dateFrom dateTo points : loc).  (* GraphScreenState *)

Abbreviation heap := (list obj).

(** Computations on the store that may fault (a property read on an object
    of the wrong shape, a dangling reference). *)
Definition M (A : Type) : Type := heap -> option (A * heap).

#[export] Instance M_ret : MRet M := fun A (a : A) h => Some (a, h).
#[export] Instance M_bind : MBind M := fun A B (f : A -> M B) (m : M A) h =>
  match m h with
  | Some (a, h') => f a h'
  | None => None
  end.

Definition fault {A} : M A := fun _ => None.

(** [new o]: allocate [o], return its reference. *)
Definition new (o : obj) : M loc := fun h => Some (length h, h ++ [o]).

Definition get_moment (h : heap) (l : loc) : option Z :=
  match h !! l with Some (OMoment t) => Some t | _ => None end.
Definition get_point (h : heap) (l : loc) : option (loc * Z) :=
  match h !! l with Some (OPoint t v) => Some (t, v) | _ => None end.
Definition get_array (h : heap) (l : loc) : option (list loc) :=
  match h !! l with Some (OArray es) => Some es | _ => None end.
Definition get_state (h : heap) (l : loc) : option (loc * loc * loc) :=
  match h !! l with Some (OState f t p) => Some (f, t, p) | _ => None end.

(** Lift a read of the store into [M]. *)
Definition load {A} (rd : heap -> loc -> option A) (l : loc) : M A :=
  fun h => match rd h l with Some a => Some (a, h) | None => None end.

(** [m.clone()] of moment: a new moment object with the same time. *)
Definition clone (l : loc) : M loc :=
  t ← load get_moment l; new (OMoment t).

(** lodash [_.clone(arr)]: a new array holding the same element
    references (a shallow copy). *)
Definition lodash_clone (l : loc) : M loc :=
  es ← load get_array l; new (OArray es).

(** ** randomDateTimePoints

    [referenceDate] and [result] are locals of the generator that never
    escape ([referenceDate] is cloned into each point, [result] is returned
    once), so the loop carries them as values; the returned array and every
    point and point time are allocated in the store.  The [while] loop runs
    on fuel and faults when it runs out. *)
Fixpoint generate (fuel : nat) (referenceDate : Z) (result : list loc)
  : M (list loc) :=
  match fuel with
  | O => fault
  | S fuel' =>
      if isBefore referenceDate DATE_RANGE_MAX_VALUE then
        t ← new (OMoment referenceDate);
        p ← new (OPoint t (180 * hours referenceDate + minutes referenceDate));
        generate fuel' (add_minutes referenceDate SAMPLES_EVERY_MINUTE)
                 (result ++ [p])
      else mret result
  end.

Definition randomDateTimePoints (fuel : nat) : M loc :=
  result ← generate fuel DATE_RANGE_MIN_VALUE [];
  new (OArray result).

(** ** initialState

    The two window constants are objects of their own: the initial state
    refers to them directly. *)
Definition initialState (fuel : nat) : M loc :=
  from ← new (OMoment DATE_WINDOW_FROM_VALUE);
  to ← new (OMoment DATE_WINDOW_TO_VALUE);
  points ← randomDateTimePoints fuel;
  new (OState from to points).

(** ** The handlers

    The [console.log] lines are left out: they write to the console only. *)

Definition changeDateFrom (state payload : loc) : M loc :=
  c ← load get_moment payload;
  if isBefore c DATE_RANGE_MIN_VALUE then mret state
  else
    '(_, dateTo, points) ← load get_state state;
    dateTo' ← clone dateTo;
    points' ← lodash_clone points;
    new (OState payload dateTo' points').

Definition changeDateTo (state payload : loc) : M loc :=
  c ← load get_moment payload;
  if isAfter c DATE_RANGE_MAX_VALUE then mret state
  else
    '(dateFrom, _, points) ← load get_state state;
    dateFrom' ← clone dateFrom;
    points' ← lodash_clone points;
    new (OState dateFrom' payload points').

(** [handleActions(map, initialState)]: the handler of the action's type,
    the state itself for any other type; an undefined state stands for the
    initial one. *)
Inductive ActionType : Type :=
| CHANGE_DATE_FROM_VALUE
| CHANGE_DATE_TO_VALUE
| OTHER_ACTION (name : string).

Record Action : Type := mkAction { type : ActionType; payload : loc }.

Definition reducer (initial : loc) (state : option loc) (action : Action)
  : M loc :=
  let state := default initial state in
  match type action with
  | CHANGE_DATE_FROM_VALUE => changeDateFrom state (payload action)
  | CHANGE_DATE_TO_VALUE => changeDateTo state (payload action)
  | OTHER_ACTION _ => mret state
  end.

(** ** Commands

    A command carries a timestamp; dispatching it creates the payload moment
    and hands the action to the reducer. *)
Inductive Command : Type :=
| SetWindowStart (c : Z)
| SetWindowEnd (c : Z).

Definition dispatch (initial state : loc) (cmd : Command) : M loc :=
  match cmd with
  | SetWindowStart c =>
      p ← new (OMoment c);
      reducer initial (Some state) (mkAction CHANGE_DATE_FROM_VALUE p)
  | SetWindowEnd c =>
      p ← new (OMoment c);
      reducer initial (Some state) (mkAction CHANGE_DATE_TO_VALUE p)
  end.

Fixpoint run (initial state : loc) (cmds : list Command) : M loc :=
  match cmds with
  | [] => mret state
  | cmd :: rest => state' ← dispatch initial state cmd; run initial state' rest
  end.

(** The store's life: build the initial state in an empty heap, then
    dispatch the commands in order. *)
Definition session (fuel : nat) (cmds : list Command) : option (loc * heap) :=
  (s0 ← initialState fuel; run s0 s0 cmds) [].

Definition reachable (s : loc) (h : heap) : Prop :=
  exists fuel cmds, session fuel cmds = Some (s, h).

(** ** Reading a state out of the store

    The value of a state: its two timestamps and the (time, value) pairs of
    its points, with all references followed.  Two states are structurally
    equal when their values are. *)
Record DateTimePoint : Type := mkPoint { time : Z; value : Z }.

Record GraphScreenState : Type := mkState {
  dateFrom : Z;
  dateTo : Z;
  points : list DateTimePoint
}.

Definition read_point (h : heap) (l : loc) : option DateTimePoint :=
  '(t, v) ← get_point h l;
  tm ← get_moment h t;
  Some (mkPoint tm v).

Definition read_points (h : heap) (l : loc) : option (list DateTimePoint) :=
  es ← get_array h l; mapM (read_point h) es.

Definition read_state (h : heap) (l : loc) : option GraphScreenState :=
  '(f, t, p) ← get_state h l;
  df ← get_moment h f;
  dt ← get_moment h t;
  ps ← read_points h p;
  Some (mkState df dt ps).

(** [reads h ls vs]: the point references [ls] read as the values [vs]. *)
Definition reads (h : heap) : list loc -> list DateTimePoint -> Prop :=
  Forall2 (fun l v => read_point h l = Some v).

(** The valid range. *)
Definition in_range (t : Z) : Prop :=
  DATE_RANGE_MIN_VALUE <= t <= DATE_RANGE_MAX_VALUE.

(** ** The series, as a value

    The point sampled at time [t], and the [n] points sampled from [t] on,
    one every [SAMPLES_EVERY_MINUTE] minutes. *)
Definition sample (t : Z) : DateTimePoint :=
  mkPoint t (180 * hours t + minutes t).

Fixpoint series (n : nat) (t : Z) : list DateTimePoint :=
  match n with
  | O => []
  | S n' => sample t :: series n' (add_minutes t SAMPLES_EVERY_MINUTE)
  end.

Definition STEP_MS : Z := SAMPLES_EVERY_MINUTE * MS_PER_MINUTE.

(** ceil((RANGE_MAX - RANGE_MIN) / step): the number of sampling times
    from [DATE_RANGE_MIN_VALUE] on that are strictly before
    [DATE_RANGE_MAX_VALUE]. *)
Definition iterations : nat :=
  Z.to_nat ((DATE_RANGE_MAX_VALUE - DATE_RANGE_MIN_VALUE + STEP_MS - 1) / STEP_MS).

Definition expected_points : list DateTimePoint :=
  series iterations DATE_RANGE_MIN_VALUE.

(** The loop started at [t] leaves after exactly [n] rounds: the first [n]
    sampling times are before the end of the range, the next one is not. *)
Definition stops_after (n : nat) (t : Z) : Prop :=
  (forall k, 0 <= k < Z.of_nat n -> t + k * STEP_MS < DATE_RANGE_MAX_VALUE) /\
  DATE_RANGE_MAX_VALUE <= t + Z.of_nat n * STEP_MS.

(** A run of the generator that returns, read back as a value. *)
Definition generates (fuel : nat) (h : heap) (pts : list DateTimePoint) : Prop :=
  exists arr h',
    randomDateTimePoints fuel h = Some (arr, h') /\
    read_points h' arr = Some pts.

(** ** Sharing between two states

    The objects a points reference owns: the array, the point objects in it
    and the moments these point to. *)
Definition owned_by_points (h : heap) (arr : loc) : list loc :=
  match get_array h arr with
  | Some es => arr :: es ++ omap (fun e => fst <$> get_point h e) es
  | None => []
  end.

(** The points of state [s'] (in store [h']) share no object with the
    points of state [s] (in store [h]). *)
Definition points_deep_independent (h : heap) (s : loc) (h' : heap) (s' : loc)
  : Prop :=
  forall f t ps f' t' ps',
    get_state h s = Some (f, t, ps) ->
    get_state h' s' = Some (f', t', ps') ->
    forall l, l ∈ owned_by_points h' ps' -> l ∉ owned_by_points h ps.

(** A small store used in the examples: a window 2010-05-03 .. 2010-05-05
    over two points, and a payload moment [c] at reference 8. *)
Definition example_heap (c : Z) : heap :=
  [ OMoment DATE_WINDOW_FROM_VALUE;              (* 0 *)
    OMoment DATE_WINDOW_TO_VALUE;                (* 1 *)
    OMoment DATE_RANGE_MIN_VALUE;                (* 2 *)
    OPoint 2%nat 0;                              (* 3 *)
    OMoment (add_minutes DATE_RANGE_MIN_VALUE 5);  (* 4 *)
    OPoint 4%nat 5;                              (* 5 *)
    OArray [3%nat; 5%nat];                       (* 6 *)
    OState 0%nat 1%nat 6%nat;                    (* 7 *)
    OMoment c ].                                 (* 8 *)

Definition example_state : GraphScreenState :=
  mkState DATE_WINDOW_FROM_VALUE DATE_WINDOW_TO_VALUE
          [mkPoint DATE_RANGE_MIN_VALUE 0;
           mkPoint (add_minutes DATE_RANGE_MIN_VALUE 5) 5].

(** The rejection policy read on the valid range alone, at one input: a
    candidate outside [[RANGE_MIN, RANGE_MAX]] leaves the state as it was. *)
Definition rejects_out_of_range (ty : ActionType) (h : heap) (s p : loc) : Prop :=
  forall c v,
    get_moment h p = Some c ->
    read_state h s = Some v ->
    ~ in_range c ->
    exists s' h',
      reducer s (Some s) (mkAction ty p) h = Some (s', h') /\
      read_state h' s' = Some v.

(** The guard a handler really has. *)
Definition accepted (ty : ActionType) (c : Z) : Prop :=
  match ty with
  | CHANGE_DATE_FROM_VALUE => DATE_RANGE_MIN_VALUE <= c
  | CHANGE_DATE_TO_VALUE => c <= DATE_RANGE_MAX_VALUE
  | OTHER_ACTION _ => False
  end.

Definition rejected (ty : ActionType) (c : Z) : Prop :=
  match ty with
  | CHANGE_DATE_FROM_VALUE => c < DATE_RANGE_MIN_VALUE
  | CHANGE_DATE_TO_VALUE => DATE_RANGE_MAX_VALUE < c
  | OTHER_ACTION _ => True
  end.

(** What the two guards keep true of the window. *)
Definition window_bounds (v : GraphScreenState) : Prop :=
  DATE_RANGE_MIN_VALUE <= dateFrom v /\ dateTo v <= DATE_RANGE_MAX_VALUE.

(** ** Commands on values

    What a command does to the value of a state: the guard of its handler,
    then the one field replaced. *)
Definition apply_command (v : GraphScreenState) (cmd : Command)
  : GraphScreenState :=
  match cmd with
  | SetWindowStart c =>
      if isBefore c DATE_RANGE_MIN_VALUE then v
      else mkState c (dateTo v) (points v)
  | SetWindowEnd c =>
      if isAfter c DATE_RANGE_MAX_VALUE then v
      else mkState (dateFrom v) c (points v)
  end.

(** The point objects the state [s] holds: the elements of its array. *)
Definition points_elems (h : heap) (s : loc) (es : list loc) : Prop :=
  exists f t p, get_state h s = Some (f, t, p) /\ get_array h p = Some es.

(** What [n] rounds of the generator's loop allocate in a store of length
    [base], and the references of the points among it: round [i] puts the
    cloned moment at [base + 2 i] and the point at [base + 2 i + 1]. *)
Fixpoint series_cells (base n : nat) (t : Z) : list obj :=
  match n with
  | O => []
  | S n' =>
      OMoment t :: OPoint base (180 * hours t + minutes t)
        :: series_cells (S (S base)) n' (add_minutes t SAMPLES_EVERY_MINUTE)
  end.

Fixpoint series_refs (base n : nat) : list loc :=
  match n with
  | O => []
  | S n' => S base :: series_refs (S (S base)) n'
  end.

(** The action type and the candidate of a command. *)
Definition command_type (cmd : Command) : ActionType :=
  match cmd with
  | SetWindowStart _ => CHANGE_DATE_FROM_VALUE
  | SetWindowEnd _ => CHANGE_DATE_TO_VALUE
  end.

Definition candidate (cmd : Command) : Z :=
  match cmd with SetWindowStart c | SetWindowEnd c => c end.

(** The value of the initial state. *)
Definition initial_value : GraphScreenState :=
  mkState DATE_WINDOW_FROM_VALUE DATE_WINDOW_TO_VALUE expected_points.

End Graph.

(** * The generator in a given time zone

    [moment("2010-05-01")] is midnight of that day on the local clock, and
    [hours()] and [minutes()] read the local clock, while [add] and
    [isBefore] work on the instant.  Here a moment is kept as its instant
    (milliseconds since 1970-01-01T00:00 UTC) and the zone is a parameter. *)

Module Zoned.
Import Graph.

(** A zone: the offset of the local clock from UTC that is in force at an
    instant, and the offset with which a wall-clock time is resolved into an
    instant (both in milliseconds). *)
Record Zone : Type := mkZone {
  offset_at : Z -> Z;
  offset_of_local : Z -> Z
}.

(** The local wall-clock time at the instant [u]. *)
Definition local_time (z : Zone) (u : Z) : Z := u + offset_at z u.

(** [moment("YYYY-MM-DD")]: the instant of local midnight of that day. *)
Definition moment (z : Zone) (y m d : Z) : Z :=
  Graph.moment y m d - offset_of_local z (Graph.moment y m d).

(** [m.hours()] and [m.minutes()]: fields of the local time. *)
Definition hours (z : Zone) (u : Z) : Z := Graph.hours (local_time z u).
Definition minutes (z : Zone) (u : Z) : Z := Graph.minutes (local_time z u).

Definition DATE_RANGE_MIN_VALUE (z : Zone) : Z := moment z 2010 5 1.
Definition DATE_RANGE_MAX_VALUE (z : Zone) : Z := moment z 2010 5 28.

(** [randomDateTimePoints], as in [Graph] but for the clock of zone [z]. *)
Fixpoint generate (z : Zone) (fuel : nat) (referenceDate : Z) (result : list loc)
  : M (list loc) :=
  match fuel with
  | O => fault
  | S fuel' =>
      if isBefore referenceDate (DATE_RANGE_MAX_VALUE z) then
        t ← new (OMoment referenceDate);
        p ← new (OPoint t (180 * hours z referenceDate + minutes z referenceDate));
        generate z fuel' (add_minutes referenceDate SAMPLES_EVERY_MINUTE)
                 (result ++ [p])
      else mret result
  end.

Definition randomDateTimePoints (z : Zone) (fuel : nat) : M loc :=
  result ← generate z fuel (DATE_RANGE_MIN_VALUE z) [];
  new (OArray result).

(** The series as a value, and a run of the generator read back. *)
Definition sample (z : Zone) (t : Z) : DateTimePoint :=
  mkPoint t (180 * hours z t + minutes z t).

Fixpoint series (z : Zone) (n : nat) (t : Z) : list DateTimePoint :=
  match n with
  | O => []
  | S n' => sample z t :: series z n' (add_minutes t SAMPLES_EVERY_MINUTE)
  end.

Definition stops_after (z : Zone) (n : nat) (t : Z) : Prop :=
  (forall k, 0 <= k < Z.of_nat n -> t + k * STEP_MS < DATE_RANGE_MAX_VALUE z) /\
  DATE_RANGE_MAX_VALUE z <= t + Z.of_nat n * STEP_MS.

(** ceil((RANGE_MAX - RANGE_MIN) / step) in zone [z]. *)
Definition rounds (z : Zone) : nat :=
  Z.to_nat ((DATE_RANGE_MAX_VALUE z - DATE_RANGE_MIN_VALUE z + STEP_MS - 1)
            / STEP_MS).

Definition generates (z : Zone) (fuel : nat) (h : heap)
    (pts : list DateTimePoint) : Prop :=
  exists arr h',
    randomDateTimePoints z fuel h = Some (arr, h') /\
    read_points h' arr = Some pts.

(** A zone whose clock never changes. *)
Definition fixed_offset (c : Z) : Zone := mkZone (fun _ => c) (fun _ => c).

(** The zone keeps one UTC offset from the start to the end of the range:
    both ends are resolved with it, and it is in force at every instant in
    between. *)
Definition one_offset_over_range (z : Zone) : Prop :=
  exists c,
    offset_of_local z (Graph.moment 2010 5 1) = c /\
    offset_of_local z (Graph.moment 2010 5 28) = c /\
    forall u, DATE_RANGE_MIN_VALUE z <= u < DATE_RANGE_MAX_VALUE z ->
              offset_at z u = c.

(** Africa/Casablanca in spring 2010: UTC until 2010-05-02, when at local
    midnight the clocks were put forward to 01:00, UTC+1 from then on (until
    August).  A wall-clock time in the skipped hour is resolved with the
    offset before the change. *)
Definition casablanca_2010 : Zone :=
  mkZone (fun u => if u <? Graph.moment 2010 5 2 then 0 else MS_PER_HOUR)
         (fun l => if l <? Graph.moment 2010 5 2 + MS_PER_HOUR
                   then 0 else MS_PER_HOUR).

End Zoned.

(** * randomDotsScreenReducer *)

Module RandomDots.

(** Property values of the plain objects involved.  Numbers are only
    stored and handed on by the reducer, never computed with. *)
Inductive jsval : Type :=
| JUndefined
| JNumber (n : Z)
| JString (s : string).

#[export] Instance jsval_eq_dec : EqDecision jsval.
Proof. solve_decision. Defined.

(** A plain object: its own properties by name. *)
Abbreviation jsobj := (gmap string jsval).

(** [o.k]: [undefined] when the property is absent. *)
Definition prop (o : jsobj) (k : string) : jsval := default JUndefined (o !! k).

Definition initialState : jsobj :=
  <["width" := JNumber 800]>
    (<["height" := JNumber 600]> (<["color" := JString "lightblue"]> ∅)).

Section Reducer.
(** The action-type constants of [./action-types]. *)
Variables BLUE_SCR_SET_WIDTH BLUE_SCR_SET_HEIGHT BLUE_SCR_SET_TEXT : string.

(** [switch (action.type)]: the first [case] that is strictly equal wins;
    [{ ...state, k: v }] is a new object with property [k] set to [v]. *)
Definition randomDotsScreenReducer (state : option jsobj) (action : jsobj)
  : jsobj :=
  let state := default initialState state in
  if decide (prop action "type" = JString BLUE_SCR_SET_WIDTH) then
    <["width" := prop action "width"]> state
  else if decide (prop action "type" = JString BLUE_SCR_SET_HEIGHT) then
    <["height" := prop action "height"]> state
  else if decide (prop action "type" = JString BLUE_SCR_SET_TEXT) then
    <["text" := prop action "text"]> state
  else state.
End Reducer.

(** A set-width action, as the action creator builds it. *)
Definition example_action : jsobj :=
  <["type" := JString "BLUE_SCR_SET_WIDTH"]> (<["width" := JNumber 1024]> ∅).

(** ** Sequences of actions

    The store hands every dispatched action to the reducer, starting from
    the state the previous one returned. *)
Section Store.
Variables BLUE_SCR_SET_WIDTH BLUE_SCR_SET_HEIGHT BLUE_SCR_SET_TEXT : string.

Definition run_actions (state : jsobj) (actions : list jsobj) : jsobj :=
  foldl (fun s a =>
           randomDotsScreenReducer BLUE_SCR_SET_WIDTH BLUE_SCR_SET_HEIGHT
             BLUE_SCR_SET_TEXT (Some s) a)
        state actions.
End Store.

(** The last action of the list whose type is [ty]. *)
Definition last_with_type (ty : string) (actions : list jsobj) : option jsobj :=
  last (filter (fun a => prop a "type" = JString ty) actions).

(** A set-height action, and a set-width action that carries no width. *)
Definition example_height_action : jsobj :=
  <["type" := JString "BLUE_SCR_SET_HEIGHT"]> (<["height" := JNumber 480]> ∅).

Definition bare_width_action : jsobj :=
  <["type" := JString "BLUE_SCR_SET_WIDTH"]> ∅.

End RandomDots.

(** * Facts about the graph-screen reducer *)

Module GraphFacts.
Import Graph.

(** ** Arithmetic of the constants *)

Lemma range_min_value : DATE_RANGE_MIN_VALUE = 1272672000000.
Proof. reflexivity. Qed.

Lemma range_max_value : DATE_RANGE_MAX_VALUE = 1275004800000.
Proof. reflexivity. Qed.

Lemma step_ms_value : STEP_MS = 300000.
Proof. reflexivity. Qed.

Lemma iterations_value : iterations = Z.to_nat 7776.
Proof. reflexivity. Qed.

Lemma isBefore_false a b : b <= a -> isBefore a b = false.
Proof. intros H. unfold isBefore. by apply Z.ltb_ge. Qed.

Lemma isBefore_true a b : a < b -> isBefore a b = true.
Proof. intros H. unfold isBefore. by apply Z.ltb_lt. Qed.

Lemma isAfter_false a b : a <= b -> isAfter a b = false.
Proof. intros H. unfold isAfter. by apply Z.ltb_ge. Qed.

Lemma isAfter_true a b : b < a -> isAfter a b = true.
Proof. intros H. unfold isAfter. by apply Z.ltb_lt. Qed.

(** ** The store only grows

    Whatever could be read from a store can be read, with the same result,
    from any extension of it. *)

Lemma lookup_fresh (h k : heap) (o : obj) : (h ++ o :: k) !! length h = Some o.
Proof. by apply list_lookup_middle. Qed.

Lemma get_moment_ext (h h' : heap) l t :
  h `prefix_of` h' -> get_moment h l = Some t -> get_moment h' l = Some t.
Proof.
  unfold get_moment. intros Hp.
  destruct (h !! l) as [o|] eqn:E; [|done].
  by rewrite (prefix_lookup_Some _ _ _ _ E Hp).
Qed.

Lemma get_point_ext (h h' : heap) l r :
  h `prefix_of` h' -> get_point h l = Some r -> get_point h' l = Some r.
Proof.
  unfold get_point. intros Hp.
  destruct (h !! l) as [o|] eqn:E; [|done].
  by rewrite (prefix_lookup_Some _ _ _ _ E Hp).
Qed.

Lemma get_array_ext (h h' : heap) l es :
  h `prefix_of` h' -> get_array h l = Some es -> get_array h' l = Some es.
Proof.
  unfold get_array. intros Hp.
  destruct (h !! l) as [o|] eqn:E; [|done].
  by rewrite (prefix_lookup_Some _ _ _ _ E Hp).
Qed.

Lemma get_state_ext (h h' : heap) l r :
  h `prefix_of` h' -> get_state h l = Some r -> get_state h' l = Some r.
Proof.
  unfold get_state. intros Hp.
  destruct (h !! l) as [o|] eqn:E; [|done].
  by rewrite (prefix_lookup_Some _ _ _ _ E Hp).
Qed.

Lemma read_point_ext (h h' : heap) l v :
  h `prefix_of` h' -> read_point h l = Some v -> read_point h' l = Some v.
Proof.
  unfold read_point. intros Hp Hr.
  destruct (get_point h l) as [[t x]|] eqn:E; [|done]. cbn in Hr.
  destruct (get_moment h t) as [tm|] eqn:Et; [|done]. cbn in Hr.
  rewrite (get_point_ext _ _ _ _ Hp E). cbn.
  by rewrite (get_moment_ext _ _ _ _ Hp Et).
Qed.

Lemma reads_ext (h h' : heap) ls vs :
  h `prefix_of` h' -> reads h ls vs -> reads h' ls vs.
Proof.
  intros Hp Hr. eapply Forall2_impl; [exact Hr|].
  intros l v. by apply read_point_ext.
Qed.

Lemma read_points_reads (h : heap) arr vs :
  read_points h arr = Some vs <->
  exists es, get_array h arr = Some es /\ reads h es vs.
Proof.
  unfold read_points, reads. split.
  - intros Hr. destruct (get_array h arr) as [es|] eqn:E; [|done].
    cbn in Hr. exists es. split; [done|]. by apply mapM_Some.
  - intros (es & -> & Hf). cbn. by apply mapM_Some.
Qed.

Lemma read_points_ext (h h' : heap) arr vs :
  h `prefix_of` h' -> read_points h arr = Some vs -> read_points h' arr = Some vs.
Proof.
  intros Hp. rewrite !read_points_reads. intros (es & Ha & Hr).
  exists es. split; [by eapply get_array_ext | by eapply reads_ext].
Qed.

(** What [read_state] needs from the store. *)
Lemma read_state_parts (h : heap) s v :
  read_state h s = Some v <->
  exists f t p,
    get_state h s = Some (f, t, p) /\
    get_moment h f = Some (dateFrom v) /\
    get_moment h t = Some (dateTo v) /\
    read_points h p = Some (points v).
Proof.
  unfold read_state. split.
  - intros Hr. destruct (get_state h s) as [[[f t] p]|]; [|done]. cbn in Hr.
    destruct (get_moment h f) as [df|] eqn:Ef; [|done]. cbn in Hr.
    destruct (get_moment h t) as [dt|] eqn:Et; [|done]. cbn in Hr.
    destruct (read_points h p) as [ps|] eqn:Ep; [|done]. cbn in Hr.
    injection Hr as <-. by exists f, t, p.
  - intros (f & t & p & -> & Hf & Ht & Hp). cbn.
    rewrite Hf. cbn. rewrite Ht. cbn. rewrite Hp. cbn. by destruct v.
Qed.

Lemma read_state_ext (h h' : heap) s v :
  h `prefix_of` h' -> read_state h s = Some v -> read_state h' s = Some v.
Proof.
  intros Hp. rewrite !read_state_parts. intros (f & t & p & Hs & Hf & Ht & Hps).
  exists f, t, p.
  split_and!; eauto using get_state_ext, get_moment_ext, read_points_ext.
Qed.

(** ** The handlers in closed form *)

Lemma new_eq (o : obj) (h : heap) : new o h = Some (length h, h ++ [o]).
Proof. reflexivity. Qed.

Lemma clone_eq (h : heap) l t :
  get_moment h l = Some t -> clone l h = Some (length h, h ++ [OMoment t]).
Proof. intros H. unfold clone, mbind, M_bind, load. by rewrite H. Qed.

Lemma lodash_clone_eq (h : heap) l es :
  get_array h l = Some es -> lodash_clone l h = Some (length h, h ++ [OArray es]).
Proof. intros H. unfold lodash_clone, mbind, M_bind, load. by rewrite H. Qed.

Lemma snoc_length (h : heap) (o : obj) : length (h ++ [o]) = S (length h).
Proof. rewrite length_app. cbn. lia. Qed.

Lemma changeDateFrom_reject (h : heap) s p c :
  get_moment h p = Some c -> c < DATE_RANGE_MIN_VALUE ->
  changeDateFrom s p h = Some (s, h).
Proof.
  intros Hp Hc. unfold changeDateFrom, mbind, M_bind, load.
  rewrite Hp. by rewrite isBefore_true.
Qed.

Lemma changeDateFrom_accept (h : heap) s p c f t ps dt es :
  get_moment h p = Some c -> DATE_RANGE_MIN_VALUE <= c ->
  get_state h s = Some (f, t, ps) ->
  get_moment h t = Some dt ->
  get_array h ps = Some es ->
  changeDateFrom s p h =
    Some (S (S (length h)),
          h ++ [OMoment dt; OArray es; OState p (length h) (S (length h))]).
Proof.
  intros Hp Hc Hs Ht Hps. unfold changeDateFrom, mbind, M_bind at 1 2, load.
  rewrite Hp, isBefore_false, Hs by done. unfold M_bind.
  rewrite (clone_eq _ _ _ Ht).
  rewrite (lodash_clone_eq (h ++ [OMoment dt]) ps es)
    by (eapply get_array_ext; [by apply prefix_app_r|done]).
  rewrite new_eq, !snoc_length, <- !app_assoc. done.
Qed.

Lemma changeDateTo_reject (h : heap) s p c :
  get_moment h p = Some c -> DATE_RANGE_MAX_VALUE < c ->
  changeDateTo s p h = Some (s, h).
Proof.
  intros Hp Hc. unfold changeDateTo, mbind, M_bind, load.
  rewrite Hp. by rewrite isAfter_true.
Qed.

Lemma changeDateTo_accept (h : heap) s p c f t ps df es :
  get_moment h p = Some c -> c <= DATE_RANGE_MAX_VALUE ->
  get_state h s = Some (f, t, ps) ->
  get_moment h f = Some df ->
  get_array h ps = Some es ->
  changeDateTo s p h =
    Some (S (S (length h)),
          h ++ [OMoment df; OArray es; OState (length h) p (S (length h))]).
Proof.
  intros Hp Hc Hs Hf Hps. unfold changeDateTo, mbind, M_bind at 1 2, load.
  rewrite Hp, isAfter_false, Hs by done. unfold M_bind.
  rewrite (clone_eq _ _ _ Hf).
  rewrite (lodash_clone_eq (h ++ [OMoment df]) ps es)
    by (eapply get_array_ext; [by apply prefix_app_r|done]).
  rewrite new_eq, !snoc_length, <- !app_assoc. done.
Qed.

(** Reading the state a handler has just built. *)
Lemma read_built_state (h : heap) f df dt es vs :
  get_moment h f = Some df ->
  reads h es vs ->
  let h' := h ++ [OMoment dt; OArray es; OState f (length h) (S (length h))] in
  read_state h' (S (S (length h))) = Some (mkState df dt vs) /\
  read_state (h ++ [OMoment dt; OArray es; OState (length h) f (S (length h))])
             (S (S (length h))) = Some (mkState dt df vs).
Proof.
  intros Hf Hes h'. subst h'.
  assert (Hpre : forall k, h `prefix_of` h ++ k) by (intros k; by apply prefix_app_r).
  assert (H0 : forall a, get_moment (h ++ [OMoment dt; OArray es; a]) (length h) = Some dt).
  { intros a. unfold get_moment. by rewrite lookup_fresh. }
  assert (H1 : forall a, read_points (h ++ [OMoment dt; OArray es; a]) (S (length h)) = Some vs).
  { intros a. apply read_points_reads. exists es. split.
    - unfold get_array.
      replace (S (length h)) with (length (h ++ [OMoment dt])) by apply snoc_length.
      change (h ++ [OMoment dt; OArray es; a])
        with (h ++ [OMoment dt] ++ OArray es :: [a]).
      rewrite app_assoc. by rewrite lookup_fresh.
    - eapply reads_ext; [apply Hpre | done]. }
  assert (H2 : forall a, get_state (h ++ [OMoment dt; OArray es; a]) (S (S (length h)))
                 = match a with OState x y z => Some (x, y, z) | _ => None end).
  { intros a. unfold get_state.
    replace (S (S (length h))) with (length (h ++ [OMoment dt; OArray es]))
      by (rewrite length_app; cbn; lia).
    change (h ++ [OMoment dt; OArray es; a])
      with (h ++ [OMoment dt; OArray es] ++ [a]).
    rewrite app_assoc. by rewrite lookup_fresh. }
  split; apply read_state_parts; eexists _, _, _; cbn [dateFrom dateTo points].
  - split_and!; [by rewrite H2 | | by apply H0 | by apply H1].
    eapply get_moment_ext; [apply Hpre | done].
  - split_and!; [by rewrite H2 | by apply H0 | | by apply H1].
    eapply get_moment_ext; [apply Hpre | done].
Qed.

(** A readable state gives the handlers what they read. *)
Lemma read_state_handler_inputs (h : heap) s v :
  read_state h s = Some v ->
  exists f t ps es,
    get_state h s = Some (f, t, ps) /\
    get_moment h f = Some (dateFrom v) /\
    get_moment h t = Some (dateTo v) /\
    get_array h ps = Some es /\
    reads h es (points v).
Proof.
  intros (f & t & ps & Hs & Hf & Ht & Hps)%read_state_parts.
  apply read_points_reads in Hps as (es & Ha & Hr).
  by exists f, t, ps, es.
Qed.

Lemma changeDateFrom_accept_read (h : heap) s p c v :
  read_state h s = Some v -> get_moment h p = Some c ->
  DATE_RANGE_MIN_VALUE <= c ->
  exists s' h',
    changeDateFrom s p h = Some (s', h') /\
    read_state h' s' = Some (mkState c (dateTo v) (points v)) /\
    h `prefix_of` h' /\ (length h <= s')%nat.
Proof.
  intros (f & t & ps & es & Hs & Hf & Ht & Ha & Hr)%read_state_handler_inputs Hp Hc.
  eexists _, _. split; [by eapply changeDateFrom_accept|].
  split; [|split; [by apply prefix_app_r | lia]].
  by apply (read_built_state h p c (dateTo v) es (points v)).
Qed.

Lemma changeDateTo_accept_read (h : heap) s p c v :
  read_state h s = Some v -> get_moment h p = Some c ->
  c <= DATE_RANGE_MAX_VALUE ->
  exists s' h',
    changeDateTo s p h = Some (s', h') /\
    read_state h' s' = Some (mkState (dateFrom v) c (points v)) /\
    h `prefix_of` h' /\ (length h <= s')%nat.
Proof.
  intros (f & t & ps & es & Hs & Hf & Ht & Ha & Hr)%read_state_handler_inputs Hp Hc.
  eexists _, _. split; [by eapply changeDateTo_accept|].
  split; [|split; [by apply prefix_app_r | lia]].
  by apply (read_built_state h p c (dateFrom v) es (points v)).
Qed.

(** ** The window commands *)

Lemma reducer_from initial s p :
  reducer initial (Some s) (mkAction CHANGE_DATE_FROM_VALUE p) = changeDateFrom s p.
Proof. reflexivity. Qed.

Lemma reducer_to initial s p :
  reducer initial (Some s) (mkAction CHANGE_DATE_TO_VALUE p) = changeDateTo s p.
Proof. reflexivity. Qed.

Lemma reducer_other initial s p name (h : heap) :
  reducer initial (Some s) (mkAction (OTHER_ACTION name) p) h = Some (s, h).
Proof. reflexivity. Qed.

(** C1 (acceptance): for every candidate [c] within
    [[RANGE_MIN, RANGE_MAX]] and every state [s], the set-window-start
    action returns a state whose [dateFrom] is exactly [c] and whose
    [dateTo] and [points] are structurally equal to those of [s]. *)
Theorem C1_setWindowStart_accepts_in_range
    (initial : loc) (h : heap) (s p : loc) (c : Z) (v : GraphScreenState) :
  read_state h s = Some v ->
  get_moment h p = Some c ->
  in_range c ->
  exists s' h',
    reducer initial (Some s) (mkAction CHANGE_DATE_FROM_VALUE p) h = Some (s', h') /\
    read_state h' s' = Some (mkState c (dateTo v) (points v)).
Proof.
  intros Hv Hp [Hlo _]. rewrite reducer_from.
  destruct (changeDateFrom_accept_read h s p c v Hv Hp Hlo) as (s' & h' & Hrun & Hread & _).
  by exists s', h'.
Qed.

Lemma C1_witness :
  exists s' h',
    reducer 7%nat (Some 7%nat) (mkAction CHANGE_DATE_FROM_VALUE 8%nat)
            (example_heap (moment 2010 5 10)) = Some (s', h') /\
    read_state h' s' =
      Some (mkState (moment 2010 5 10) (dateTo example_state) (points example_state)).
Proof.
  apply (C1_setWindowStart_accepts_in_range
           7%nat (example_heap (moment 2010 5 10)) 7%nat 8%nat (moment 2010 5 10)
           example_state).
  - reflexivity.
  - reflexivity.
  - unfold in_range. split; apply Z.leb_le; reflexivity.
Defined.

(** C2 (range floor): for every candidate [c] strictly before [RANGE_MIN]
    and every state [s], the set-window-start action returns the current
    state unchanged: the same state, in an unchanged store, hence the same
    [dateFrom], [dateTo] and [points]. *)
Theorem C2_setWindowStart_rejects_before_min
    (initial : loc) (h : heap) (s p : loc) (c : Z) (v : GraphScreenState) :
  read_state h s = Some v ->
  get_moment h p = Some c ->
  c < DATE_RANGE_MIN_VALUE ->
  exists s' h',
    reducer initial (Some s) (mkAction CHANGE_DATE_FROM_VALUE p) h = Some (s', h') /\
    s' = s /\ h' = h /\
    read_state h' s' = Some v.
Proof.
  intros Hv Hp Hc. exists s, h. rewrite reducer_from.
  split; [by eapply changeDateFrom_reject | done].
Qed.

Lemma C2_witness :
  exists s' h',
    reducer 7%nat (Some 7%nat) (mkAction CHANGE_DATE_FROM_VALUE 8%nat)
            (example_heap (moment 2010 4 30)) = Some (s', h') /\
    s' = 7%nat /\ h' = example_heap (moment 2010 4 30) /\
    read_state h' s' = Some example_state.
Proof.
  apply (C2_setWindowStart_rejects_before_min
           7%nat (example_heap (moment 2010 4 30)) 7%nat 8%nat (moment 2010 4 30)
           example_state).
  - reflexivity.
  - reflexivity.
  - apply Z.ltb_lt. reflexivity.
Defined.

(** C3 (range ceiling): for every candidate [c] strictly after
    [RANGE_MAX] and every state [s], the set-window-end action returns the
    current state unchanged ([dateTo] in particular); for every other
    candidate it returns a new state with [dateTo = c], and [dateFrom] and
    [points] carried over unchanged. *)
Theorem C3_setWindowEnd_ceiling
    (initial : loc) (h : heap) (s p : loc) (c : Z) (v : GraphScreenState) :
  read_state h s = Some v ->
  get_moment h p = Some c ->
  exists s' h',
    reducer initial (Some s) (mkAction CHANGE_DATE_TO_VALUE p) h = Some (s', h') /\
    (DATE_RANGE_MAX_VALUE < c ->
       s' = s /\ h' = h /\ read_state h' s' = Some v) /\
    (c <= DATE_RANGE_MAX_VALUE ->
       (length h <= s')%nat /\
       read_state h' s' = Some (mkState (dateFrom v) c (points v))).
Proof.
  intros Hv Hp. rewrite reducer_to.
  destruct (Z.lt_ge_cases DATE_RANGE_MAX_VALUE c) as [Hc|Hc].
  - exists s, h. split; [by eapply changeDateTo_reject|].
    split; [done | lia].
  - destruct (changeDateTo_accept_read h s p c v Hv Hp Hc)
      as (s' & h' & Hrun & Hread & _ & Hnew).
    exists s', h'. split; [done|]. split; [lia | done].
Qed.

Lemma C3_witness :
  exists s' h',
    reducer 7%nat (Some 7%nat) (mkAction CHANGE_DATE_TO_VALUE 8%nat)
            (example_heap (moment 2010 6 1)) = Some (s', h') /\
    (DATE_RANGE_MAX_VALUE < moment 2010 6 1 ->
       s' = 7%nat /\ h' = example_heap (moment 2010 6 1) /\
       read_state h' s' = Some example_state) /\
    (moment 2010 6 1 <= DATE_RANGE_MAX_VALUE ->
       (length (example_heap (moment 2010 6 1)) <= s')%nat /\
       read_state h' s' =
         Some (mkState (dateFrom example_state) (moment 2010 6 1)
                       (points example_state))).
Proof.
  apply (C3_setWindowEnd_ceiling
           7%nat (example_heap (moment 2010 6 1)) 7%nat 8%nat (moment 2010 6 1)
           example_state).
  - reflexivity.
  - reflexivity.
Defined.

(** ** Totality and the rejection policy *)

Lemma built_lookup0 (h : heap) a b c : (h ++ [a; b; c]) !! length h = Some a.
Proof. apply lookup_fresh. Qed.

Lemma built_lookup1 (h : heap) a b c : (h ++ [a; b; c]) !! S (length h) = Some b.
Proof.
  rewrite lookup_app_r by lia.
  by replace (S (length h) - length h)%nat with 1%nat by lia.
Qed.

Lemma built_lookup2 (h : heap) a b c : (h ++ [a; b; c]) !! S (S (length h)) = Some c.
Proof.
  rewrite lookup_app_r by lia.
  by replace (S (S (length h)) - length h)%nat with 2%nat by lia.
Qed.

(** A set-window-start command for 2010-06-01, a candidate outside the
    valid range, is taken: the state changes. *)
Lemma C7_counterexample :
  ~ in_range (moment 2010 6 1) /\
  (exists s' h' v',
     reducer 7%nat (Some 7%nat) (mkAction CHANGE_DATE_FROM_VALUE 8%nat)
             (example_heap (moment 2010 6 1)) = Some (s', h') /\
     read_state (example_heap (moment 2010 6 1)) 7%nat = Some example_state /\
     read_state h' s' = Some v' /\
     dateFrom example_state = moment 2010 5 3 /\
     dateFrom v' = moment 2010 6 1) /\
  ~ rejects_out_of_range CHANGE_DATE_FROM_VALUE
      (example_heap (moment 2010 6 1)) 7%nat 8%nat.
Proof.
  assert (Hout : ~ in_range (moment 2010 6 1)).
  { intros [_ Hhi]. apply Z.leb_le in Hhi. discriminate Hhi. }
  split; [exact Hout|]. split.
  - eexists _, _, _. split; [vm_compute; reflexivity|].
    split; [reflexivity|]. split; [vm_compute; reflexivity|]. split; reflexivity.
  - intros Hrej.
    destruct (Hrej (moment 2010 6 1) example_state eq_refl eq_refl Hout)
      as (s' & h' & Hrun & Hread).
    vm_compute in Hrun. injection Hrun as <- <-.
    vm_compute in Hread. discriminate Hread.
Qed.

(** C7, amended: for every state and every timestamp payload both commands
    return a state and never fault; a set-window-start command whose
    candidate is strictly before [RANGE_MIN] and a set-window-end command
    whose candidate is strictly after [RANGE_MAX] are silent no-ops whose
    result is the current state, unchanged. *)
Theorem C7_total_and_guarded_noop
    (initial : loc) (ty : ActionType) (h : heap) (s p : loc) (c : Z)
    (v : GraphScreenState) :
  read_state h s = Some v ->
  get_moment h p = Some c ->
  exists s' h' v',
    reducer initial (Some s) (mkAction ty p) h = Some (s', h') /\
    read_state h' s' = Some v' /\
    (rejected ty c -> s' = s /\ h' = h /\ v' = v).
Proof.
  intros Hv Hp.
  destruct ty as [| |name];
    rewrite ?reducer_from, ?reducer_to, ?reducer_other; cbn [rejected].
  - destruct (Z.lt_ge_cases c DATE_RANGE_MIN_VALUE) as [Hc|Hc].
    + exists s, h, v. by rewrite (changeDateFrom_reject h s p c Hp Hc).
    + destruct (changeDateFrom_accept_read h s p c v Hv Hp Hc)
        as (s' & h' & Hrun & Hread & _).
      eexists s', h', _. split; [done|]. split; [done|]. lia.
  - destruct (Z.lt_ge_cases DATE_RANGE_MAX_VALUE c) as [Hc|Hc].
    + exists s, h, v. by rewrite (changeDateTo_reject h s p c Hp Hc).
    + destruct (changeDateTo_accept_read h s p c v Hv Hp Hc)
        as (s' & h' & Hrun & Hread & _).
      eexists s', h', _. split; [done|]. split; [done|]. lia.
  - by exists s, h, v.
Qed.

Lemma C7_witness :
  exists s' h' v',
    reducer 7%nat (Some 7%nat) (mkAction CHANGE_DATE_TO_VALUE 8%nat)
            (example_heap (moment 2010 6 1)) = Some (s', h') /\
    read_state h' s' = Some v' /\
    (rejected CHANGE_DATE_TO_VALUE (moment 2010 6 1) ->
     s' = 7%nat /\ h' = example_heap (moment 2010 6 1) /\ v' = example_state).
Proof.
  apply (C7_total_and_guarded_noop
           7%nat CHANGE_DATE_TO_VALUE (example_heap (moment 2010 6 1))
           7%nat 8%nat (moment 2010 6 1) example_state).
  - reflexivity.
  - reflexivity.
Defined.

(** ** What a command shares with the prior state *)

(** After an accepted set-window-start command the new state's array is
    a new object, yet the point objects 3 and 5 and their moments 2 and 4
    belong to both the prior and the new state. *)
Lemma C6_counterexample :
  exists s' h',
    reducer 7%nat (Some 7%nat) (mkAction CHANGE_DATE_FROM_VALUE 8%nat)
            (example_heap (moment 2010 5 10)) = Some (s', h') /\
    accepted CHANGE_DATE_FROM_VALUE (moment 2010 5 10) /\
    owned_by_points (example_heap (moment 2010 5 10)) 6%nat
      = [6; 3; 5; 2; 4]%nat /\
    get_state h' s' = Some (8, 9, 10)%nat /\
    owned_by_points h' 10%nat = [10; 3; 5; 2; 4]%nat /\
    ~ points_deep_independent (example_heap (moment 2010 5 10)) 7%nat h' s'.
Proof.
  eexists _, _. split; [vm_compute; reflexivity|].
  split; [apply Z.leb_le; reflexivity|].
  split; [reflexivity|]. split; [reflexivity|]. split; [reflexivity|].
  intros Hind.
  apply (Hind 0 1 6 8 9 10 eq_refl eq_refl 3)%nat.
  - change (3%nat ∈ [10; 3; 5; 2; 4]%nat). set_solver.
  - change (3%nat ∈ [6; 3; 5; 2; 4]%nat). set_solver.
Qed.

(** C6, amended: no command mutates the prior state: every object of the
    store, the prior state among them, is the same after the command.  On an
    accepted command the carried-over date ([dateTo] for set-window-start,
    [dateFrom] for set-window-end) is a new moment object with the same
    time, and [points] is a new array object, a shallow copy: it holds the
    very point objects that the prior state's array holds. *)
Theorem C6_prior_state_kept_points_shallow
    (initial : loc) (ty : ActionType) (h : heap) (s p : loc) (c : Z)
    (v : GraphScreenState) :
  read_state h s = Some v ->
  get_moment h p = Some c ->
  exists s' h',
    reducer initial (Some s) (mkAction ty p) h = Some (s', h') /\
    (forall l o, h !! l = Some o -> h' !! l = Some o) /\
    read_state h' s = Some v /\
    (accepted ty c ->
     exists f t ps es d a,
       get_state h s = Some (f, t, ps) /\
       get_array h ps = Some es /\
       (length h <= d)%nat /\ (length h <= a)%nat /\ (length h <= s')%nat /\
       get_array h' a = Some es /\
       match ty with
       | CHANGE_DATE_FROM_VALUE =>
           get_state h' s' = Some (p, d, a) /\
           get_moment h' d = Some (dateTo v)
       | CHANGE_DATE_TO_VALUE =>
           get_state h' s' = Some (d, p, a) /\
           get_moment h' d = Some (dateFrom v)
       | OTHER_ACTION _ => False
       end).
Proof.
  intros Hv Hp.
  destruct (read_state_handler_inputs h s v Hv)
    as (f & t & ps & es & Hs & Hf & Ht & Ha & Hr).
  assert (Hkeep : forall k l o, h !! l = Some o -> (h ++ k) !! l = Some o)
    by (intros k l o; apply lookup_app_l_Some).
  assert (Hkeepv : forall k, read_state (h ++ k) s = Some v)
    by (intros k; eapply read_state_ext; [by apply prefix_app_r | done]).
  destruct ty as [| |name];
    rewrite ?reducer_from, ?reducer_to, ?reducer_other; cbn [accepted].
  - destruct (Z.lt_ge_cases c DATE_RANGE_MIN_VALUE) as [Hc|Hc].
    + exists s, h. rewrite (changeDateFrom_reject h s p c Hp Hc).
      split; [done|]. split; [done|]. split; [done|]. lia.
    + eexists _, _. split; [by eapply changeDateFrom_accept|].
      split; [apply Hkeep|]. split; [apply Hkeepv|]. intros _.
      exists f, t, ps, es, (length h), (S (length h)).
      unfold get_array, get_state, get_moment.
      rewrite built_lookup0, built_lookup1, built_lookup2.
      split_and!; try done; try lia.
  - destruct (Z.lt_ge_cases DATE_RANGE_MAX_VALUE c) as [Hc|Hc].
    + exists s, h. rewrite (changeDateTo_reject h s p c Hp Hc).
      split; [done|]. split; [done|]. split; [done|]. lia.
    + eexists _, _. split; [by eapply changeDateTo_accept|].
      split; [apply Hkeep|]. split; [apply Hkeepv|]. intros _.
      exists f, t, ps, es, (length h), (S (length h)).
      unfold get_array, get_state, get_moment.
      rewrite built_lookup0, built_lookup1, built_lookup2.
      split_and!; try done; try lia.
  - exists s, h. split; [done|]. split; [done|]. split; [done|]. done.
Qed.

Lemma C6_witness :
  exists s' h',
    reducer 7%nat (Some 7%nat) (mkAction CHANGE_DATE_FROM_VALUE 8%nat)
            (example_heap (moment 2010 5 10)) = Some (s', h') /\
    (forall l o, example_heap (moment 2010 5 10) !! l = Some o -> h' !! l = Some o) /\
    read_state h' 7%nat = Some example_state /\
    (accepted CHANGE_DATE_FROM_VALUE (moment 2010 5 10) ->
     exists f t ps es d a,
       get_state (example_heap (moment 2010 5 10)) 7%nat = Some (f, t, ps) /\
       get_array (example_heap (moment 2010 5 10)) ps = Some es /\
       (length (example_heap (moment 2010 5 10)) <= d)%nat /\
       (length (example_heap (moment 2010 5 10)) <= a)%nat /\
       (length (example_heap (moment 2010 5 10)) <= s')%nat /\
       get_array h' a = Some es /\
       get_state h' s' = Some (8%nat, d, a) /\
       get_moment h' d = Some (dateTo example_state)).
Proof.
  apply (C6_prior_state_kept_points_shallow
           7%nat CHANGE_DATE_FROM_VALUE (example_heap (moment 2010 5 10))
           7%nat 8%nat (moment 2010 5 10) example_state).
  - reflexivity.
  - reflexivity.
Defined.

(** ** The generator *)

Lemma add_minutes_step t : add_minutes t SAMPLES_EVERY_MINUTE = t + STEP_MS.
Proof. reflexivity. Qed.

Lemma series_length n t : length (series n t) = n.
Proof. revert t. induction n as [|n IH]; intros t; cbn; [done|]. by rewrite IH. Qed.

Lemma series_lookup n t (k : nat) :
  (k < n)%nat -> series n t !! k = Some (sample (t + Z.of_nat k * STEP_MS)).
Proof.
  revert t k. induction n as [|n IH]; intros t k Hk; [lia|].
  destruct k as [|k]; cbn [series].
  - cbn. f_equal. f_equal. lia.
  - cbn [lookup list_lookup]. rewrite IH by lia. rewrite add_minutes_step.
    f_equal. f_equal. lia.
Qed.

Lemma stops_after_unique n m t : stops_after n t -> stops_after m t -> n = m.
Proof.
  unfold stops_after. rewrite step_ms_value. intros [Hn1 Hn2] [Hm1 Hm2].
  destruct (Nat.lt_trichotomy n m) as [Hlt|[Heq|Hgt]]; [|done|].
  - specialize (Hm1 (Z.of_nat n)). lia.
  - specialize (Hn1 (Z.of_nat m)). lia.
Qed.

Lemma stops_after_iterations : stops_after iterations DATE_RANGE_MIN_VALUE.
Proof.
  unfold stops_after.
  rewrite iterations_value, Z2Nat.id, range_min_value, range_max_value,
    step_ms_value by lia.
  split; [intros k Hk|]; lia.
Qed.

Lemma stops_after_next n t :
  t < DATE_RANGE_MAX_VALUE -> stops_after n (t + STEP_MS) -> stops_after (S n) t.
Proof.
  unfold stops_after. rewrite step_ms_value. intros Ht [H1 H2]. split.
  - intros k Hk. destruct (decide (k = 0)) as [->|Hne]; [lia|].
    specialize (H1 (k - 1)). lia.
  - lia.
Qed.

Lemma stops_after_prev n t : stops_after (S n) t -> stops_after n (t + STEP_MS).
Proof.
  unfold stops_after. rewrite step_ms_value. intros [H1 H2]. split.
  - intros k Hk. specialize (H1 (k + 1)). lia.
  - lia.
Qed.

(** One round of the loop: the point allocated for time [t] reads as
    [sample t]. *)
Lemma reads_round (h : heap) t res vs :
  reads h res vs ->
  reads ((h ++ [OMoment t]) ++ [OPoint (length h) (180 * hours t + minutes t)])
        (res ++ [length (h ++ [OMoment t])])
        (vs ++ [sample t]).
Proof.
  intros Hr. apply Forall2_app.
  - eapply reads_ext; [|done]. rewrite <- app_assoc. by apply prefix_app_r.
  - constructor; [|constructor].
    unfold read_point, get_point, get_moment. rewrite lookup_fresh. cbn.
    rewrite <- app_assoc. cbn. by rewrite lookup_fresh.
Qed.

(** If the loop returns, it has allocated the series and nothing else has
    changed. *)
Lemma generate_sound fuel :
  forall t res (h : heap) res' h' vs,
    generate fuel t res h = Some (res', h') ->
    reads h res vs ->
    exists n,
      h `prefix_of` h' /\ reads h' res' (vs ++ series n t) /\ stops_after n t.
Proof.
  induction fuel as [|fuel IH]; intros t res h res' h' vs Hrun Hr; [done|].
  cbn [generate] in Hrun.
  destruct (isBefore t DATE_RANGE_MAX_VALUE) eqn:Hb.
  - unfold mbind, M_bind in Hrun. rewrite !new_eq in Hrun.
    apply (IH _ _ _ _ _ (vs ++ [sample t])) in Hrun as (n & Hpre & Hreads & Hstop);
      [|by apply reads_round].
    exists (S n). split_and!.
    + etrans; [|exact Hpre]. rewrite <- app_assoc. by apply prefix_app_r.
    + cbn [series]. by rewrite cons_middle, app_assoc.
    + apply stops_after_next; [by apply Z.ltb_lt | done].
  - injection Hrun as <- <-. exists 0%nat. split_and!; [done | | ].
    + cbn [series]. by rewrite app_nil_r.
    + apply Z.ltb_ge in Hb. unfold stops_after. split; [intros k Hk|]; lia.
Qed.

(** With fuel for one more test than there are rounds, the loop returns. *)
Lemma generate_total n :
  forall fuel t res (h : heap),
    stops_after n t -> (n < fuel)%nat -> is_Some (generate fuel t res h).
Proof.
  induction n as [|n IH]; intros fuel t res h Hstop Hfuel;
    (destruct fuel as [|fuel]; [lia|]); cbn [generate].
  - destruct Hstop as [_ Hend]. rewrite isBefore_false by lia. by eexists.
  - rewrite isBefore_true by (destruct Hstop as [Hin _]; specialize (Hin 0); lia).
    unfold mbind, M_bind. rewrite !new_eq.
    apply IH; [by apply stops_after_prev | lia].
Qed.

Lemma randomDateTimePoints_sound fuel (h : heap) arr h' :
  randomDateTimePoints fuel h = Some (arr, h') ->
  h `prefix_of` h' /\ read_points h' arr = Some expected_points.
Proof.
  unfold randomDateTimePoints, mbind, M_bind. intros Hrun.
  destruct (generate fuel DATE_RANGE_MIN_VALUE [] h) as [[res h1]|] eqn:Hgen; [|done].
  rewrite new_eq in Hrun. injection Hrun as <- <-.
  apply (generate_sound _ _ _ _ _ _ []) in Hgen as (n & Hpre & Hreads & Hstop);
    [|by apply Forall2_nil].
  rewrite (stops_after_unique _ _ _ Hstop stops_after_iterations) in Hreads.
  split; [by apply prefix_app_r|].
  apply read_points_reads. exists res. split.
  - unfold get_array. by rewrite lookup_fresh.
  - eapply reads_ext; [|exact Hreads]. by apply prefix_app_r.
Qed.

Lemma randomDateTimePoints_total fuel (h : heap) :
  (iterations < fuel)%nat -> generates fuel h expected_points.
Proof.
  intros Hfuel. unfold generates.
  destruct (generate_total iterations fuel DATE_RANGE_MIN_VALUE [] h
              stops_after_iterations Hfuel) as [[res h1] Hgen].
  assert (Hrun : randomDateTimePoints fuel h = Some (length h1, h1 ++ [OArray res])).
  { unfold randomDateTimePoints, mbind, M_bind. by rewrite Hgen. }
  exists (length h1), (h1 ++ [OArray res]). split; [done|].
  by apply randomDateTimePoints_sound in Hrun as [_ ?].
Qed.

(** ** The initial state *)

Lemma initialState_sound fuel (h : heap) s0 h0 :
  initialState fuel h = Some (s0, h0) ->
  h `prefix_of` h0 /\
  read_state h0 s0 =
    Some (mkState DATE_WINDOW_FROM_VALUE DATE_WINDOW_TO_VALUE expected_points).
Proof.
  unfold initialState, mbind, M_bind. rewrite !new_eq. intros Hrun.
  destruct (randomDateTimePoints fuel _) as [[arr h3]|] eqn:Hgen; [|done].
  rewrite new_eq in Hrun. injection Hrun as <- <-.
  apply randomDateTimePoints_sound in Hgen as [Hpre Hpts].
  assert (Hpre0 : h ++ [OMoment DATE_WINDOW_FROM_VALUE] `prefix_of` h3).
  { etrans; [|exact Hpre]. by apply prefix_app_r. }
  split.
  - apply prefix_app_r. etrans; [|exact Hpre0]. by apply prefix_app_r.
  - apply read_state_parts. eexists _, _, _. cbn [dateFrom dateTo points].
    split_and!.
    + unfold get_state. by rewrite lookup_fresh.
    + eapply get_moment_ext; [apply prefix_app_r, Hpre0|].
      unfold get_moment. by rewrite lookup_fresh.
    + eapply get_moment_ext; [apply prefix_app_r, Hpre|].
      unfold get_moment. by rewrite lookup_fresh.
    + eapply read_points_ext; [|exact Hpts]. by apply prefix_app_r.
Qed.

Lemma initialState_total fuel (h : heap) :
  (iterations < fuel)%nat -> is_Some (initialState fuel h).
Proof.
  intros Hfuel. unfold initialState, mbind, M_bind. rewrite !new_eq.
  destruct (randomDateTimePoints_total fuel
              ((h ++ [OMoment DATE_WINDOW_FROM_VALUE]) ++ [OMoment DATE_WINDOW_TO_VALUE])
              Hfuel) as (arr & h3 & -> & _).
  by eexists.
Qed.

(** ** Sequences of commands *)

Lemma dispatch_spec initial (h : heap) s v cmd :
  read_state h s = Some v ->
  exists s' h' v',
    dispatch initial s cmd h = Some (s', h') /\
    read_state h' s' = Some v' /\
    points v' = points v /\
    match cmd with
    | SetWindowStart c =>
        dateTo v' = dateTo v /\
        (c < DATE_RANGE_MIN_VALUE -> dateFrom v' = dateFrom v /\ s' = s) /\
        (DATE_RANGE_MIN_VALUE <= c -> dateFrom v' = c /\ (length h <= s')%nat)
    | SetWindowEnd c =>
        dateFrom v' = dateFrom v /\
        (DATE_RANGE_MAX_VALUE < c -> dateTo v' = dateTo v /\ s' = s) /\
        (c <= DATE_RANGE_MAX_VALUE -> dateTo v' = c /\ (length h <= s')%nat)
    end.
Proof.
  intros Hv.
  assert (Hpre : h `prefix_of` h ++ [OMoment match cmd with
                                      | SetWindowStart c | SetWindowEnd c => c end])
    by by apply prefix_app_r.
  pose proof (read_state_ext _ _ _ _ Hpre Hv) as Hv1.
  destruct cmd as [c|c]; unfold dispatch, mbind, M_bind; rewrite new_eq;
    rewrite ?reducer_from, ?reducer_to;
    (assert (Hp : get_moment (h ++ [OMoment c]) (length h) = Some c)
      by (unfold get_moment; by rewrite lookup_fresh)).
  - destruct (Z.lt_ge_cases c DATE_RANGE_MIN_VALUE) as [Hc|Hc].
    + exists s, (h ++ [OMoment c]), v.
      rewrite (changeDateFrom_reject _ s _ c Hp Hc).
      split_and!; try done; lia.
    + destruct (changeDateFrom_accept_read _ s _ c v Hv1 Hp Hc)
        as (s' & h' & Hrun & Hread & _ & Hnew).
      eexists s', h', _. split; [done|]. split; [done|]. cbn.
      rewrite snoc_length in Hnew. split_and!; try done; lia.
  - destruct (Z.lt_ge_cases DATE_RANGE_MAX_VALUE c) as [Hc|Hc].
    + exists s, (h ++ [OMoment c]), v.
      rewrite (changeDateTo_reject _ s _ c Hp Hc).
      split_and!; try done; lia.
    + destruct (changeDateTo_accept_read _ s _ c v Hv1 Hp Hc)
        as (s' & h' & Hrun & Hread & _ & Hnew).
      eexists s', h', _. split; [done|]. split; [done|]. cbn.
      rewrite snoc_length in Hnew. split_and!; try done; lia.
Qed.

Lemma dispatch_keeps_bounds initial (h : heap) s v cmd :
  read_state h s = Some v -> window_bounds v ->
  exists s' h' v',
    dispatch initial s cmd h = Some (s', h') /\
    read_state h' s' = Some v' /\ window_bounds v'.
Proof.
  intros Hv [Hlo Hhi].
  destruct (dispatch_spec initial h s v cmd Hv) as (s' & h' & v' & Hrun & Hread & _ & Hcmd).
  exists s', h', v'. split; [done|]. split; [done|]. unfold window_bounds.
  destruct cmd as [c|c]; destruct Hcmd as (Hkeep & Hrej & Hacc).
  - destruct (Z.lt_ge_cases c DATE_RANGE_MIN_VALUE) as [Hc|Hc];
      [destruct (Hrej Hc) | destruct (Hacc Hc)]; lia.
  - destruct (Z.lt_ge_cases DATE_RANGE_MAX_VALUE c) as [Hc|Hc];
      [destruct (Hrej Hc) | destruct (Hacc Hc)]; lia.
Qed.

Lemma run_keeps_bounds initial cmds :
  forall (h : heap) s v,
    read_state h s = Some v -> window_bounds v ->
    exists s' h' v',
      run initial s cmds h = Some (s', h') /\
      read_state h' s' = Some v' /\ window_bounds v'.
Proof.
  induction cmds as [|cmd cmds IH]; intros h s v Hv Hb.
  - by exists s, h, v.
  - destruct (dispatch_keeps_bounds initial h s v cmd Hv Hb)
      as (s1 & h1 & v1 & Hrun1 & Hv1 & Hb1).
    destruct (IH h1 s1 v1 Hv1 Hb1) as (s' & h' & v' & Hrun & Hv' & Hb').
    exists s', h', v'. split; [|done].
    cbn [run]. unfold mbind, M_bind. by rewrite Hrun1.
Qed.

Lemma initial_window_bounds :
  window_bounds (mkState DATE_WINDOW_FROM_VALUE DATE_WINDOW_TO_VALUE expected_points).
Proof. split; apply Z.leb_le; reflexivity. Qed.

Lemma session_sound fuel cmds s (h : heap) :
  session fuel cmds = Some (s, h) ->
  exists v, read_state h s = Some v /\ window_bounds v.
Proof.
  unfold session, mbind, M_bind.
  destruct (initialState fuel []) as [[s0 h0]|] eqn:Hinit; [|done].
  apply initialState_sound in Hinit as [_ Hv0].
  destruct (run_keeps_bounds s0 cmds h0 s0 _ Hv0 initial_window_bounds)
    as (s' & h' & v' & Hrun & Hv' & Hb').
  rewrite Hrun. intros [= <- <-]. by exists v'.
Qed.

Lemma session_total fuel cmds :
  (iterations < fuel)%nat -> is_Some (session fuel cmds).
Proof.
  intros Hfuel. unfold session, mbind, M_bind.
  destruct (initialState_total fuel [] Hfuel) as [[s0 h0] Hinit]. rewrite Hinit.
  apply initialState_sound in Hinit as [_ Hv0].
  destruct (run_keeps_bounds s0 cmds h0 s0 _ Hv0 initial_window_bounds)
    as (s' & h' & v' & Hrun & _).
  rewrite Hrun. by eexists.
Qed.

(** ** The window and the valid range *)

Lemma session_eq fuel cmds :
  session fuel cmds =
    match initialState fuel [] with
    | Some (s0, h0) => run s0 s0 cmds h0
    | None => None
    end.
Proof. reflexivity. Qed.

Lemma run_one initial s cmd (h : heap) :
  run initial s [cmd] h =
    match dispatch initial s cmd h with
    | Some (s', h') => Some (s', h')
    | None => None
    end.
Proof. cbn [run]. unfold mbind, M_bind. by destruct (dispatch initial s cmd h) as [[??]|]. Qed.

(** From the initial state, a set-window-start command with a candidate
    not before [RANGE_MIN] is taken whatever else the candidate is. *)
Lemma session_start_accepted fuel c :
  (iterations < fuel)%nat ->
  DATE_RANGE_MIN_VALUE <= c ->
  exists s0 h0 s h v,
    session fuel [] = Some (s0, h0) /\
    read_state h0 s0 =
      Some (mkState DATE_WINDOW_FROM_VALUE DATE_WINDOW_TO_VALUE expected_points) /\
    dispatch s0 s0 (SetWindowStart c) h0 = Some (s, h) /\
    session fuel [SetWindowStart c] = Some (s, h) /\
    read_state h s = Some v /\
    s <> s0 /\
    dateFrom v = c /\
    dateTo v = DATE_WINDOW_TO_VALUE.
Proof.
  intros Hfuel Hc. rewrite !session_eq.
  destruct (initialState_total fuel [] Hfuel) as [[s0 h0] Hinit]. rewrite Hinit.
  apply initialState_sound in Hinit as [_ Hv0].
  destruct (dispatch_spec s0 h0 s0 _ (SetWindowStart c) Hv0)
    as (s' & h' & v' & Hd & Hv' & _ & Hto & _ & Hacc).
  destruct (Hacc Hc) as [Hfrom Hnew].
  assert (Hs0 : (s0 < length h0)%nat).
  { apply read_state_parts in Hv0 as (f & t & ps & Hs & _).
    unfold get_state in Hs. destruct (h0 !! s0) eqn:E; [|done].
    by apply lookup_lt_Some in E. }
  exists s0, h0, s', h', v'. rewrite run_one, Hd.
  split_and!; try done. lia.
Qed.

(** From the initial state, the set-window-start command for 2010-06-01
    leads to a state whose [dateFrom] is after [RANGE_MAX]. *)
Lemma C4_counterexample :
  exists s h v,
    session (S iterations) [SetWindowStart (moment 2010 6 1)] = Some (s, h) /\
    reachable s h /\
    read_state h s = Some v /\
    dateFrom v = moment 2010 6 1 /\
    DATE_RANGE_MAX_VALUE < dateFrom v /\
    ~ in_range (dateFrom v).
Proof.
  assert (Hge : DATE_RANGE_MIN_VALUE <= moment 2010 6 1)
    by (apply Z.leb_le; reflexivity).
  assert (Hlt : DATE_RANGE_MAX_VALUE < moment 2010 6 1)
    by (apply Z.ltb_lt; reflexivity).
  destruct (session_start_accepted (S iterations) (moment 2010 6 1)
              (Nat.lt_succ_diag_r iterations) Hge)
    as (s0 & h0 & s & h & v & _ & _ & _ & Hses & Hv & _ & Hfrom & _).
  exists s, h, v. split; [exact Hses|].
  split; [eexists _, _; exact Hses|].
  split; [exact Hv|]. split; [exact Hfrom|]. rewrite Hfrom.
  split; [exact Hlt|]. unfold in_range. lia.
Qed.

(** C4, amended: every sequence of set-window-start and set-window-end
    commands runs to a state, and in every state reached from the initial
    state [dateFrom] is not before [RANGE_MIN] and [dateTo] is not after
    [RANGE_MAX]. *)
Theorem C4_reachable_window_one_sided (fuel : nat) (cmds : list Command) :
  (iterations < fuel)%nat ->
  (exists s h, session fuel cmds = Some (s, h)) /\
  (forall fuel' s h,
     session fuel' cmds = Some (s, h) ->
     exists v,
       read_state h s = Some v /\
       DATE_RANGE_MIN_VALUE <= dateFrom v /\
       dateTo v <= DATE_RANGE_MAX_VALUE).
Proof.
  intros Hfuel. split.
  - destruct (session_total fuel cmds Hfuel) as [[s h] Hses].
    exists s, h. exact Hses.
  - intros fuel' s h Hses. exact (session_sound fuel' cmds s h Hses).
Qed.

Lemma C4_witness :
  (exists s h,
     session (S iterations)
       [SetWindowStart (moment 2010 6 1); SetWindowEnd (moment 2010 4 1)]
     = Some (s, h)) /\
  (forall fuel' s h,
     session fuel'
       [SetWindowStart (moment 2010 6 1); SetWindowEnd (moment 2010 4 1)]
     = Some (s, h) ->
     exists v,
       read_state h s = Some v /\
       DATE_RANGE_MIN_VALUE <= dateFrom v /\
       dateTo v <= DATE_RANGE_MAX_VALUE).
Proof.
  apply (C4_reachable_window_one_sided (S iterations)).
  apply Nat.lt_succ_diag_r.
Defined.

(** C8: the order of [dateFrom] and [dateTo] is not enforced: from the
    initial state, the set-window-start command for 2010-05-10 is accepted
    (it yields a new state with that [dateFrom]) although the result has
    [dateFrom] strictly after [dateTo]. *)
Theorem C8_dateFrom_after_dateTo_accepted :
  exists s h v s' h' v',
    session (S iterations) [] = Some (s, h) /\
    reachable s h /\
    read_state h s = Some v /\
    dispatch s s (SetWindowStart (moment 2010 5 10)) h = Some (s', h') /\
    reachable s' h' /\
    read_state h' s' = Some v' /\
    s' <> s /\
    dateFrom v' = moment 2010 5 10 /\
    dateTo v' = moment 2010 5 5 /\
    dateTo v' < dateFrom v'.
Proof.
  assert (Hge : DATE_RANGE_MIN_VALUE <= moment 2010 5 10)
    by (apply Z.leb_le; reflexivity).
  destruct (session_start_accepted (S iterations) (moment 2010 5 10)
              (Nat.lt_succ_diag_r iterations) Hge)
    as (s0 & h0 & s & h & v & Hses0 & Hv0 & Hd & Hses & Hv & Hne & Hfrom & Hto).
  exists s0, h0,
    (mkState DATE_WINDOW_FROM_VALUE DATE_WINDOW_TO_VALUE expected_points), s, h, v.
  split; [exact Hses0|]. split; [eexists _, _; exact Hses0|].
  split; [exact Hv0|]. split; [exact Hd|]. split; [eexists _, _; exact Hses|].
  split; [exact Hv|]. split; [exact Hne|]. split; [exact Hfrom|].
  split; [exact Hto|]. rewrite Hto, Hfrom. apply Z.ltb_lt. reflexivity.
Qed.

(** ** The generated values *)

Lemma hours_bounds t : 0 <= hours t <= 23.
Proof. unfold hours. pose proof (Z.mod_pos_bound (t / MS_PER_HOUR) 24). lia. Qed.

(** On the sampling grid the minute field is a multiple of five. *)
Lemma minutes_on_grid k :
  minutes (DATE_RANGE_MIN_VALUE + k * STEP_MS) = 5 * (k mod 12).
Proof.
  rewrite range_min_value, step_ms_value. unfold minutes, MS_PER_MINUTE.
  replace (1272672000000 + k * 300000) with ((5 * k + 353520 * 60) * 60000) by lia.
  rewrite Z.div_mul by lia. rewrite Z.mod_add by lia.
  change 60 with (5 * 12). by rewrite Z.mul_mod_distr_l by lia.
Qed.

Lemma sample_value_bounds k :
  0 <= value (sample (DATE_RANGE_MIN_VALUE + k * STEP_MS)) <= 4195.
Proof.
  cbn [sample value]. rewrite minutes_on_grid.
  pose proof (hours_bounds (DATE_RANGE_MIN_VALUE + k * STEP_MS)).
  pose proof (Z.mod_pos_bound k 12). lia.
Qed.

(** C9: every value of the generated series is an integer between 0 and
    4195 = 180 * 23 + 55, a bound that is reached; each value is
    [180 * hours + minutes] of its own time as it stands, and some values
    are strictly above [SAMPLE_VALUE_MAX] = 150, which bounds nothing. *)
Theorem C9_generated_values (fuel : nat) (h : heap) :
  (iterations < fuel)%nat ->
  exists pts,
    generates fuel h pts /\
    Forall (fun p => 0 <= value p <= 4195 /\
                     value p = 180 * hours (time p) + minutes (time p)) pts /\
    (exists p, p ∈ pts /\ value p = 180 * 23 + 55) /\
    (exists p, p ∈ pts /\ SAMPLE_VALUE_MAX < value p) /\
    SAMPLE_VALUE_MAX = 150.
Proof.
  intros Hfuel. exists expected_points.
  split; [by apply randomDateTimePoints_total|]. split_and!.
  - apply Forall_lookup_2. intros i p Hi.
    assert (Hlt : (i < iterations)%nat).
    { apply lookup_lt_Some in Hi. unfold expected_points in Hi.
      by rewrite series_length in Hi. }
    unfold expected_points in Hi. rewrite series_lookup in Hi by done.
    injection Hi as <-. split; [apply sample_value_bounds | reflexivity].
  - exists (sample (DATE_RANGE_MIN_VALUE + Z.of_nat 287 * STEP_MS)). split.
    + apply (list_elem_of_lookup_2 _ 287%nat). unfold expected_points.
      apply series_lookup. rewrite iterations_value. lia.
    + reflexivity.
  - exists (sample (DATE_RANGE_MIN_VALUE + Z.of_nat 12 * STEP_MS)). split.
    + apply (list_elem_of_lookup_2 _ 12%nat). unfold expected_points.
      apply series_lookup. rewrite iterations_value. lia.
    + apply Z.ltb_lt. reflexivity.
  - reflexivity.
Qed.

Lemma C9_witness :
  exists pts,
    generates (S iterations) [] pts /\
    Forall (fun p => 0 <= value p <= 4195 /\
                     value p = 180 * hours (time p) + minutes (time p)) pts /\
    (exists p, p ∈ pts /\ value p = 180 * 23 + 55) /\
    (exists p, p ∈ pts /\ SAMPLE_VALUE_MAX < value p) /\
    SAMPLE_VALUE_MAX = 150.
Proof.
  apply (C9_generated_values (S iterations) []).
  apply Nat.lt_succ_diag_r.
Defined.

End GraphFacts.

(** * Facts about randomDotsScreenReducer *)

Module RandomDotsFacts.
Import RandomDots.

Section Reducer.
Variables WIDTH HEIGHT TEXT : string.

(** The three constants name three different action types. *)
Hypothesis types_differ : WIDTH <> HEIGHT /\ WIDTH <> TEXT /\ HEIGHT <> TEXT.

Lemma reducer_set_width state action :
  prop action "type" = JString WIDTH ->
  randomDotsScreenReducer WIDTH HEIGHT TEXT (Some state) action
    = <["width" := prop action "width"]> state.
Proof. intros Hty. unfold randomDotsScreenReducer. by rewrite decide_True. Qed.

Lemma reducer_set_height state action :
  prop action "type" = JString HEIGHT ->
  randomDotsScreenReducer WIDTH HEIGHT TEXT (Some state) action
    = <["height" := prop action "height"]> state.
Proof.
  intros Hty. unfold randomDotsScreenReducer.
  rewrite decide_False by (rewrite Hty; destruct types_differ as (?&?&?); congruence).
  by rewrite decide_True.
Qed.

Lemma reducer_set_text state action :
  prop action "type" = JString TEXT ->
  randomDotsScreenReducer WIDTH HEIGHT TEXT (Some state) action
    = <["text" := prop action "text"]> state.
Proof.
  intros Hty. unfold randomDotsScreenReducer.
  rewrite decide_False by (rewrite Hty; destruct types_differ as (?&?&?); congruence).
  rewrite decide_False by (rewrite Hty; destruct types_differ as (?&?&?); congruence).
  by rewrite decide_True.
Qed.

Lemma reducer_default state action :
  prop action "type" <> JString WIDTH ->
  prop action "type" <> JString HEIGHT ->
  prop action "type" <> JString TEXT ->
  randomDotsScreenReducer WIDTH HEIGHT TEXT (Some state) action = state.
Proof.
  intros H1 H2 H3. unfold randomDotsScreenReducer.
  by rewrite !decide_False.
Qed.

(** C10: for every action whose type is none of the three recognised
    ones the reducer returns its input state; for a set-width,
    set-height or set-text action the result has the action's width,
    height or text as that one property and every other property as in
    the input state. *)
Theorem C10_reducer_frame (state action : jsobj) :
  (prop action "type" <> JString WIDTH ->
   prop action "type" <> JString HEIGHT ->
   prop action "type" <> JString TEXT ->
   randomDotsScreenReducer WIDTH HEIGHT TEXT (Some state) action = state) /\
  (forall ty field,
     (ty, field) ∈ [(WIDTH, "width"); (HEIGHT, "height"); (TEXT, "text")] ->
     prop action "type" = JString ty ->
     let state' := randomDotsScreenReducer WIDTH HEIGHT TEXT (Some state) action in
     state' !! field = Some (prop action field) /\
     forall k, k <> field -> state' !! k = state !! k).
Proof.
  split; [apply reducer_default|].
  intros ty field Hin Hty state'. subst state'.
  apply elem_of_cons in Hin as [[= -> ->]|Hin];
    [|apply elem_of_cons in Hin as [[= -> ->]|Hin];
      [|apply list_elem_of_singleton in Hin as [= -> ->]]].
  - rewrite (reducer_set_width _ _ Hty). split; [apply lookup_insert_eq|].
    intros k Hk. by apply lookup_insert_ne.
  - rewrite (reducer_set_height _ _ Hty). split; [apply lookup_insert_eq|].
    intros k Hk. by apply lookup_insert_ne.
  - rewrite (reducer_set_text _ _ Hty). split; [apply lookup_insert_eq|].
    intros k Hk. by apply lookup_insert_ne.
Qed.
End Reducer.

Lemma reducer_example :
  randomDotsScreenReducer "BLUE_SCR_SET_WIDTH" "BLUE_SCR_SET_HEIGHT"
    "BLUE_SCR_SET_TEXT" (Some initialState) example_action
  = <["width" := JNumber 1024]> initialState /\
  randomDotsScreenReducer "BLUE_SCR_SET_WIDTH" "BLUE_SCR_SET_HEIGHT"
    "BLUE_SCR_SET_TEXT" None (<["type" := JString "@@redux/INIT"]> ∅)
  = initialState.
Proof. split; reflexivity. Qed.

Lemma C10_witness :
  (prop example_action "type" <> JString "BLUE_SCR_SET_WIDTH" ->
   prop example_action "type" <> JString "BLUE_SCR_SET_HEIGHT" ->
   prop example_action "type" <> JString "BLUE_SCR_SET_TEXT" ->
   randomDotsScreenReducer "BLUE_SCR_SET_WIDTH" "BLUE_SCR_SET_HEIGHT"
     "BLUE_SCR_SET_TEXT" (Some initialState) example_action = initialState) /\
  (forall ty field,
     (ty, field) ∈ [("BLUE_SCR_SET_WIDTH", "width");
                    ("BLUE_SCR_SET_HEIGHT", "height");
                    ("BLUE_SCR_SET_TEXT", "text")] ->
     prop example_action "type" = JString ty ->
     let state' :=
       randomDotsScreenReducer "BLUE_SCR_SET_WIDTH" "BLUE_SCR_SET_HEIGHT"
         "BLUE_SCR_SET_TEXT" (Some initialState) example_action in
     state' !! field = Some (prop example_action field) /\
     forall k, k <> field -> state' !! k = initialState !! k).
Proof.
  apply (C10_reducer_frame "BLUE_SCR_SET_WIDTH" "BLUE_SCR_SET_HEIGHT"
           "BLUE_SCR_SET_TEXT").
  split; [discriminate | split; discriminate].
Defined.

End RandomDotsFacts.

(** * Command sequences of the graph-screen reducer *)

Module GraphSequences.
Import Graph GraphFacts.

Lemma apply_start_rejected v c :
  c < DATE_RANGE_MIN_VALUE -> apply_command v (SetWindowStart c) = v.
Proof. intros Hc. cbn. by rewrite isBefore_true. Qed.

Lemma apply_start_accepted v c :
  DATE_RANGE_MIN_VALUE <= c ->
  apply_command v (SetWindowStart c) = mkState c (dateTo v) (points v).
Proof. intros Hc. cbn. by rewrite isBefore_false. Qed.

Lemma apply_end_rejected v c :
  DATE_RANGE_MAX_VALUE < c -> apply_command v (SetWindowEnd c) = v.
Proof. intros Hc. cbn. by rewrite isAfter_true. Qed.

Lemma apply_end_accepted v c :
  c <= DATE_RANGE_MAX_VALUE ->
  apply_command v (SetWindowEnd c) = mkState (dateFrom v) c (points v).
Proof. intros Hc. cbn. by rewrite isAfter_false. Qed.

(** One dispatched command: it returns, the state it returns reads as
    [apply_command] says, the store has only grown, and whether the state
    object is a new one follows the guard. *)
Lemma dispatch_refines initial (h : heap) s v cmd :
  read_state h s = Some v ->
  exists s' h',
    dispatch initial s cmd h = Some (s', h') /\
    read_state h' s' = Some (apply_command v cmd) /\
    h `prefix_of` h' /\
    (rejected (match cmd with
               | SetWindowStart _ => CHANGE_DATE_FROM_VALUE
               | SetWindowEnd _ => CHANGE_DATE_TO_VALUE
               end)
              (match cmd with SetWindowStart c | SetWindowEnd c => c end) ->
     s' = s) /\
    (accepted (match cmd with
               | SetWindowStart _ => CHANGE_DATE_FROM_VALUE
               | SetWindowEnd _ => CHANGE_DATE_TO_VALUE
               end)
              (match cmd with SetWindowStart c | SetWindowEnd c => c end) ->
     (length h < s')%nat).
Proof.
  intros Hv.
  assert (Hpre : forall c, h `prefix_of` h ++ [OMoment c])
    by (intros c; by apply prefix_app_r).
  assert (Hp : forall c, get_moment (h ++ [OMoment c]) (length h) = Some c)
    by (intros c; unfold get_moment; by rewrite lookup_fresh).
  destruct cmd as [c|c]; unfold dispatch, mbind, M_bind; rewrite new_eq;
    rewrite ?reducer_from, ?reducer_to; cbn [rejected accepted];
    pose proof (read_state_ext _ _ _ _ (Hpre c) Hv) as Hv1.
  - destruct (Z.lt_ge_cases c DATE_RANGE_MIN_VALUE) as [Hc|Hc].
    + exists s, (h ++ [OMoment c]).
      rewrite (changeDateFrom_reject _ s _ c (Hp c) Hc), apply_start_rejected by done.
      split_and!; try done. lia.
    + destruct (changeDateFrom_accept_read _ s _ c v Hv1 (Hp c) Hc)
        as (s' & h' & Hrun & Hread & Hext & Hnew).
      exists s', h'. rewrite apply_start_accepted by done.
      rewrite snoc_length in Hnew.
      split; [done|]. split; [done|].
      split; [etrans; [apply (Hpre c) | exact Hext]|]. split; intros; lia.
  - destruct (Z.lt_ge_cases DATE_RANGE_MAX_VALUE c) as [Hc|Hc].
    + exists s, (h ++ [OMoment c]).
      rewrite (changeDateTo_reject _ s _ c (Hp c) Hc), apply_end_rejected by done.
      split_and!; try done. lia.
    + destruct (changeDateTo_accept_read _ s _ c v Hv1 (Hp c) Hc)
        as (s' & h' & Hrun & Hread & Hext & Hnew).
      exists s', h'. rewrite apply_end_accepted by done.
      rewrite snoc_length in Hnew.
      split; [done|]. split; [done|].
      split; [etrans; [apply (Hpre c) | exact Hext]|]. split; intros; lia.
Qed.

Lemma run_cons initial s cmd cmds (h : heap) :
  run initial s (cmd :: cmds) h =
    match dispatch initial s cmd h with
    | Some (s', h') => run initial s' cmds h'
    | None => None
    end.
Proof. reflexivity. Qed.

Lemma run_app initial cmds1 cmds2 :
  forall s (h : heap),
    run initial s (cmds1 ++ cmds2) h =
      match run initial s cmds1 h with
      | Some (s1, h1) => run initial s1 cmds2 h1
      | None => None
      end.
Proof.
  induction cmds1 as [|cmd cmds1 IH]; intros s h; [done|].
  cbn [app]. rewrite !run_cons.
  destruct (dispatch initial s cmd h) as [[s' h']|]; [apply IH|done].
Qed.

Lemma run_refines initial cmds :
  forall (h : heap) s v,
    read_state h s = Some v ->
    exists s' h',
      run initial s cmds h = Some (s', h') /\
      read_state h' s' = Some (foldl apply_command v cmds) /\
      h `prefix_of` h'.
Proof.
  induction cmds as [|cmd cmds IH]; intros h s v Hv.
  - by exists s, h.
  - destruct (dispatch_refines initial h s v cmd Hv)
      as (s1 & h1 & Hd & Hv1 & Hpre1 & _).
    destruct (IH h1 s1 _ Hv1) as (s' & h' & Hrun & Hv' & Hpre').
    exists s', h'. rewrite run_cons, Hd. split_and!; [done|done|by etrans].
Qed.

(** X1: any sequence of window commands, run from any well-formed state,
    returns, and the state it returns has the value obtained by applying the
    commands one after the other to the value of the start state: a
    candidate before [RANGE_MIN] (for the start) or after [RANGE_MAX] (for the
    end) changes nothing, any other replaces that one date. *)
Theorem X1_run_refines_values
    (initial : loc) (cmds : list Command) (h : heap) (s : loc)
    (v : GraphScreenState) :
  read_state h s = Some v ->
  exists s' h',
    run initial s cmds h = Some (s', h') /\
    read_state h' s' = Some (foldl apply_command v cmds).
Proof.
  intros Hv. destruct (run_refines initial cmds h s v Hv) as (s' & h' & Hrun & Hv' & _).
  by exists s', h'.
Qed.

Lemma X1_witness :
  exists s' h',
    run 7%nat 7%nat
        [SetWindowStart (moment 2010 5 10); SetWindowEnd (moment 2010 6 1);
         SetWindowEnd (moment 2010 5 20)]
        (example_heap 0) = Some (s', h') /\
    read_state h' s' =
      Some (foldl apply_command example_state
              [SetWindowStart (moment 2010 5 10); SetWindowEnd (moment 2010 6 1);
               SetWindowEnd (moment 2010 5 20)]).
Proof.
  apply (X1_run_refines_values 7%nat _ (example_heap 0) 7%nat example_state).
  reflexivity.
Defined.

(** X2: a set-window-start and a set-window-end command commute: run in
    either order from the same state they lead to states of equal value. *)
Theorem X2_start_end_commute
    (initial : loc) (a b : Z) (h : heap) (s : loc) (v : GraphScreenState) :
  read_state h s = Some v ->
  exists s1 h1 s2 h2 v',
    run initial s [SetWindowStart a; SetWindowEnd b] h = Some (s1, h1) /\
    run initial s [SetWindowEnd b; SetWindowStart a] h = Some (s2, h2) /\
    read_state h1 s1 = Some v' /\
    read_state h2 s2 = Some v'.
Proof.
  intros Hv.
  destruct (run_refines initial [SetWindowStart a; SetWindowEnd b] h s v Hv)
    as (s1 & h1 & Hr1 & Hv1 & _).
  destruct (run_refines initial [SetWindowEnd b; SetWindowStart a] h s v Hv)
    as (s2 & h2 & Hr2 & Hv2 & _).
  eexists s1, h1, s2, h2, _. split_and!; [done|done|exact Hv1|].
  rewrite Hv2. f_equal. cbn.
  by destruct (isBefore a DATE_RANGE_MIN_VALUE), (isAfter b DATE_RANGE_MAX_VALUE).
Qed.

Lemma X2_witness :
  exists s1 h1 s2 h2 v',
    run 7%nat 7%nat [SetWindowStart (moment 2010 5 10); SetWindowEnd (moment 2010 5 4)]
        (example_heap 0) = Some (s1, h1) /\
    run 7%nat 7%nat [SetWindowEnd (moment 2010 5 4); SetWindowStart (moment 2010 5 10)]
        (example_heap 0) = Some (s2, h2) /\
    read_state h1 s1 = Some v' /\
    read_state h2 s2 = Some v'.
Proof.
  apply (X2_start_end_commute 7%nat (moment 2010 5 10) (moment 2010 5 4)
           (example_heap 0) 7%nat example_state).
  reflexivity.
Defined.

Lemma apply_command_points v cmds : points (foldl apply_command v cmds) = points v.
Proof.
  revert v. induction cmds as [|cmd cmds IH]; intros v; [done|].
  cbn [foldl]. rewrite IH. destruct cmd as [c|c]; cbn.
  - by destruct (isBefore c DATE_RANGE_MIN_VALUE).
  - by destruct (isAfter c DATE_RANGE_MAX_VALUE).
Qed.

Lemma apply_command_twice v cmd :
  apply_command (apply_command v cmd) cmd = apply_command v cmd.
Proof.
  destruct cmd as [c|c]; cbn.
  - by destruct (isBefore c DATE_RANGE_MIN_VALUE) eqn:E; cbn; rewrite ?E.
  - by destruct (isAfter c DATE_RANGE_MAX_VALUE) eqn:E; cbn; rewrite ?E.
Qed.

(** X3: an accepted command is not compared with the current value: sent a
    second time it builds yet another state object, although the value of
    the state stays what the first one made it. *)
Theorem X3_accepted_command_always_new_state
    (initial : loc) (cmd : Command) (h : heap) (s : loc) (v : GraphScreenState) :
  read_state h s = Some v ->
  accepted (command_type cmd) (candidate cmd) ->
  exists s1 h1 s2 h2 v',
    dispatch initial s cmd h = Some (s1, h1) /\
    dispatch initial s1 cmd h1 = Some (s2, h2) /\
    read_state h1 s1 = Some v' /\
    read_state h2 s2 = Some v' /\
    s1 <> s /\ s2 <> s1 /\ s2 <> s.
Proof.
  intros Hv Hacc.
  destruct (dispatch_refines initial h s v cmd Hv)
    as (s1 & h1 & Hd1 & Hv1 & Hp1 & _ & Hn1).
  destruct (dispatch_refines initial h1 s1 _ cmd Hv1)
    as (s2 & h2 & Hd2 & Hv2 & Hp2 & _ & Hn2).
  rewrite apply_command_twice in Hv2.
  assert (Hs : (s < length h)%nat).
  { apply read_state_parts in Hv as (f & t & ps & Hs & _).
    unfold get_state in Hs. destruct (h !! s) eqn:E; [|done].
    by apply lookup_lt_Some in E. }
  assert (Hs1 : (s1 < length h1)%nat).
  { apply read_state_parts in Hv1 as (f & t & ps & Hs1 & _).
    unfold get_state in Hs1. destruct (h1 !! s1) eqn:E; [|done].
    by apply lookup_lt_Some in E. }
  assert (H1 : (length h < s1)%nat) by (destruct cmd; by apply Hn1).
  assert (H2 : (length h1 < s2)%nat) by (destruct cmd; by apply Hn2).
  eexists s1, h1, s2, h2, _.
  split_and!; [done | done | exact Hv1 | exact Hv2 | lia | lia | lia].
Qed.

Lemma X3_witness :
  exists s1 h1 s2 h2 v',
    dispatch 7%nat 7%nat (SetWindowStart DATE_WINDOW_FROM_VALUE) (example_heap 0)
      = Some (s1, h1) /\
    dispatch 7%nat s1 (SetWindowStart DATE_WINDOW_FROM_VALUE) h1 = Some (s2, h2) /\
    read_state h1 s1 = Some v' /\
    read_state h2 s2 = Some v' /\
    s1 <> 7%nat /\ s2 <> s1 /\ s2 <> 7%nat.
Proof.
  apply (X3_accepted_command_always_new_state
           7%nat (SetWindowStart DATE_WINDOW_FROM_VALUE) (example_heap 0) 7%nat
           example_state).
  - reflexivity.
  - change (DATE_RANGE_MIN_VALUE <= DATE_WINDOW_FROM_VALUE).
    apply Z.leb_le. reflexivity.
Defined.

(** X4: of two commands for the same window edge the later one wins when it
    is accepted: the pair leads to a state of the same value as the later
    command alone. *)
Theorem X4_later_command_wins
    (initial : loc) (cmd1 cmd2 : Command) (h : heap) (s : loc)
    (v : GraphScreenState) :
  read_state h s = Some v ->
  command_type cmd1 = command_type cmd2 ->
  accepted (command_type cmd2) (candidate cmd2) ->
  exists s1 h1 s2 h2 v',
    run initial s [cmd1; cmd2] h = Some (s1, h1) /\
    run initial s [cmd2] h = Some (s2, h2) /\
    read_state h1 s1 = Some v' /\
    read_state h2 s2 = Some v'.
Proof.
  intros Hv Hty Hacc.
  destruct (run_refines initial [cmd1; cmd2] h s v Hv) as (s1 & h1 & Hr1 & Hv1 & _).
  destruct (run_refines initial [cmd2] h s v Hv) as (s2 & h2 & Hr2 & Hv2 & _).
  eexists s1, h1, s2, h2, _. split_and!; [done | done | exact Hv1 |].
  rewrite Hv2. f_equal.
  destruct cmd1 as [a|a], cmd2 as [b|b]; try discriminate Hty; cbn in Hacc |- *.
  - rewrite (isBefore_false b) by done.
    by destruct (isBefore a DATE_RANGE_MIN_VALUE).
  - rewrite (isAfter_false b) by done.
    by destruct (isAfter a DATE_RANGE_MAX_VALUE).
Qed.

Lemma X4_witness :
  exists s1 h1 s2 h2 v',
    run 7%nat 7%nat [SetWindowEnd (moment 2010 5 20); SetWindowEnd (moment 2010 5 4)]
        (example_heap 0) = Some (s1, h1) /\
    run 7%nat 7%nat [SetWindowEnd (moment 2010 5 4)] (example_heap 0)
      = Some (s2, h2) /\
    read_state h1 s1 = Some v' /\
    read_state h2 s2 = Some v'.
Proof.
  apply (X4_later_command_wins 7%nat (SetWindowEnd (moment 2010 5 20))
           (SetWindowEnd (moment 2010 5 4)) (example_heap 0) 7%nat example_state).
  - reflexivity.
  - change (CHANGE_DATE_TO_VALUE = CHANGE_DATE_TO_VALUE). reflexivity.
  - change (moment 2010 5 4 <= DATE_RANGE_MAX_VALUE). apply Z.leb_le. reflexivity.
Defined.

(** X5: earlier snapshots stay valid: after any further commands, the state
    reached before them and the start state still read, in the final store,
    as they did, and every object of the start store is unchanged. *)
Theorem X5_snapshots_persist
    (initial : loc) (cmds1 cmds2 : list Command) (h : heap) (s : loc)
    (v : GraphScreenState) :
  read_state h s = Some v ->
  exists s1 h1 s2 h2,
    run initial s cmds1 h = Some (s1, h1) /\
    run initial s (cmds1 ++ cmds2) h = Some (s2, h2) /\
    read_state h1 s1 = Some (foldl apply_command v cmds1) /\
    read_state h2 s1 = Some (foldl apply_command v cmds1) /\
    read_state h2 s = Some v /\
    (forall l o, h !! l = Some o -> h2 !! l = Some o).
Proof.
  intros Hv.
  destruct (run_refines initial cmds1 h s v Hv) as (s1 & h1 & Hr1 & Hv1 & Hp1).
  destruct (run_refines initial cmds2 h1 s1 _ Hv1) as (s2 & h2 & Hr2 & Hv2 & Hp2).
  exists s1, h1, s2, h2. rewrite run_app, Hr1.
  assert (Hp : h `prefix_of` h2) by by etrans.
  split_and!; [done | done | done | | | ].
  - exact (read_state_ext _ _ _ _ Hp2 Hv1).
  - exact (read_state_ext _ _ _ _ Hp Hv).
  - intros l o Hl. exact (prefix_lookup_Some _ _ _ _ Hl Hp).
Qed.

Lemma X5_witness :
  exists s1 h1 s2 h2,
    run 7%nat 7%nat [SetWindowStart (moment 2010 5 10)] (example_heap 0)
      = Some (s1, h1) /\
    run 7%nat 7%nat
        ([SetWindowStart (moment 2010 5 10)] ++ [SetWindowEnd (moment 2010 5 20)])
        (example_heap 0) = Some (s2, h2) /\
    read_state h1 s1 =
      Some (foldl apply_command example_state [SetWindowStart (moment 2010 5 10)]) /\
    read_state h2 s1 =
      Some (foldl apply_command example_state [SetWindowStart (moment 2010 5 10)]) /\
    read_state h2 7%nat = Some example_state /\
    (forall l o, example_heap 0 !! l = Some o -> h2 !! l = Some o).
Proof.
  apply (X5_snapshots_persist 7%nat [SetWindowStart (moment 2010 5 10)]
           [SetWindowEnd (moment 2010 5 20)] (example_heap 0) 7%nat example_state).
  reflexivity.
Defined.

Lemma dispatch_elems initial (h : heap) s v es cmd :
  read_state h s = Some v ->
  points_elems h s es ->
  exists s' h',
    dispatch initial s cmd h = Some (s', h') /\
    read_state h' s' = Some (apply_command v cmd) /\
    points_elems h' s' es.
Proof.
  intros Hv (f & t & p & Hs & Ha).
  destruct (dispatch_refines initial h s v cmd Hv) as (s' & h' & Hd & Hv' & _).
  exists s', h'. split; [done|]. split; [done|].
  destruct (read_state_handler_inputs h s v Hv)
    as (f' & t' & p' & es' & Hs' & Hf & Ht & Ha' & _).
  rewrite Hs in Hs'. injection Hs' as <- <- <-.
  rewrite Ha in Ha'. injection Ha' as <-.
  assert (Hpre : forall c, h `prefix_of` h ++ [OMoment c])
    by (intros c; by apply prefix_app_r).
  assert (Hp : forall c, get_moment (h ++ [OMoment c]) (length h) = Some c)
    by (intros c; unfold get_moment; by rewrite lookup_fresh).
  assert (Hkeep : forall c, points_elems (h ++ [OMoment c]) s es).
  { intros c. exists f, t, p.
    split; [exact (get_state_ext _ _ _ _ (Hpre c) Hs)
           | exact (get_array_ext _ _ _ _ (Hpre c) Ha)]. }
  destruct cmd as [c|c]; unfold dispatch, mbind, M_bind in Hd;
    rewrite new_eq in Hd; rewrite ?reducer_from, ?reducer_to in Hd.
  - destruct (Z.lt_ge_cases c DATE_RANGE_MIN_VALUE) as [Hc|Hc].
    + rewrite (changeDateFrom_reject _ s _ c (Hp c) Hc) in Hd.
      injection Hd as <- <-. apply Hkeep.
    + rewrite (changeDateFrom_accept (h ++ [OMoment c]) s (length h) c f t p
                 (dateTo v) es) in Hd;
        [|apply Hp | done | exact (get_state_ext _ _ _ _ (Hpre c) Hs)
         | exact (get_moment_ext _ _ _ _ (Hpre c) Ht)
         | exact (get_array_ext _ _ _ _ (Hpre c) Ha)].
      injection Hd as <- <-. eexists _, _, _.
      unfold get_state, get_array. by rewrite built_lookup2, built_lookup1.
  - destruct (Z.lt_ge_cases DATE_RANGE_MAX_VALUE c) as [Hc|Hc].
    + rewrite (changeDateTo_reject _ s _ c (Hp c) Hc) in Hd.
      injection Hd as <- <-. apply Hkeep.
    + rewrite (changeDateTo_accept (h ++ [OMoment c]) s (length h) c f t p
                 (dateFrom v) es) in Hd;
        [|apply Hp | done | exact (get_state_ext _ _ _ _ (Hpre c) Hs)
         | exact (get_moment_ext _ _ _ _ (Hpre c) Hf)
         | exact (get_array_ext _ _ _ _ (Hpre c) Ha)].
      injection Hd as <- <-. eexists _, _, _.
      unfold get_state, get_array. by rewrite built_lookup2, built_lookup1.
Qed.

Lemma run_elems initial cmds :
  forall (h : heap) s v es,
    read_state h s = Some v ->
    points_elems h s es ->
    exists s' h',
      run initial s cmds h = Some (s', h') /\
      read_state h' s' = Some (foldl apply_command v cmds) /\
      points_elems h' s' es.
Proof.
  induction cmds as [|cmd cmds IH]; intros h s v es Hv He.
  - by exists s, h.
  - destruct (dispatch_elems initial h s v es cmd Hv He) as (s1 & h1 & Hd & Hv1 & He1).
    destruct (IH h1 s1 _ es Hv1 He1) as (s' & h' & Hrun & Hv' & He').
    exists s', h'. by rewrite run_cons, Hd.
Qed.

(** The whole life of the store, given fuel for the generator. *)
Lemma session_refines fuel cmds :
  (iterations < fuel)%nat ->
  exists s0 h0 es s h,
    initialState fuel [] = Some (s0, h0) /\
    read_state h0 s0 = Some initial_value /\
    points_elems h0 s0 es /\
    length es = iterations /\
    session fuel cmds = Some (s, h) /\
    read_state h s = Some (foldl apply_command initial_value cmds) /\
    points_elems h s es.
Proof.
  intros Hfuel. rewrite session_eq.
  destruct (initialState_total fuel [] Hfuel) as [[s0 h0] Hinit].
  pose proof Hinit as Hinit'. apply initialState_sound in Hinit' as [_ Hv0].
  destruct (read_state_handler_inputs h0 s0 _ Hv0)
    as (f & t & p & es & Hs & _ & _ & Ha & Hr).
  assert (He : points_elems h0 s0 es) by by exists f, t, p.
  destruct (run_elems s0 cmds h0 s0 _ es Hv0 He) as (s & h & Hrun & Hv & He').
  exists s0, h0, es, s, h. rewrite Hinit.
  split; [reflexivity|]. split; [exact Hv0|]. split; [exact He|].
  split; [|split; [exact Hrun|split; [exact Hv|exact He']]].
  apply Forall2_length in Hr. rewrite Hr. apply series_length.
Qed.

(** X6: the point objects are never copied: the array of every state the
    store reaches holds the very point objects that the array of the initial
    state holds, in the same order. *)
Theorem X6_all_states_share_point_objects (fuel : nat) (cmds : list Command) :
  (iterations < fuel)%nat ->
  exists s0 h0 es s h,
    initialState fuel [] = Some (s0, h0) /\
    session fuel cmds = Some (s, h) /\
    points_elems h0 s0 es /\
    points_elems h s es /\
    length es = iterations.
Proof.
  intros Hfuel.
  destruct (session_refines fuel cmds Hfuel)
    as (s0 & h0 & es & s & h & Hi & _ & He0 & Hlen & Hses & _ & He).
  exists s0, h0, es, s, h.
  split; [exact Hi|]. split; [exact Hses|]. split; [exact He0|].
  split; [exact He|exact Hlen].
Qed.

Lemma X6_witness :
  exists s0 h0 es s h,
    initialState (S iterations) [] = Some (s0, h0) /\
    session (S iterations)
      [SetWindowStart (moment 2010 5 10); SetWindowEnd (moment 2010 5 20)]
      = Some (s, h) /\
    points_elems h0 s0 es /\
    points_elems h s es /\
    length es = iterations.
Proof.
  apply (X6_all_states_share_point_objects (S iterations)).
  apply Nat.lt_succ_diag_r.
Defined.

(** X7: the window is never used to filter the series: whatever commands
    were dispatched, the state reached holds the full generated series, and
    its value is the initial window with the commands applied in order. *)
Theorem X7_points_never_filtered (fuel : nat) (cmds : list Command) :
  (iterations < fuel)%nat ->
  exists s h v,
    session fuel cmds = Some (s, h) /\
    read_state h s = Some v /\
    v = foldl apply_command initial_value cmds /\
    points v = expected_points /\
    length (points v) = iterations.
Proof.
  intros Hfuel.
  destruct (session_refines fuel cmds Hfuel)
    as (s0 & h0 & es & s & h & _ & _ & _ & _ & Hses & Hv & _).
  exists s, h, (foldl apply_command initial_value cmds).
  split; [exact Hses|]. split; [exact Hv|]. split; [reflexivity|].
  rewrite apply_command_points. split; [reflexivity|].
  cbn [initial_value points]. apply series_length.
Qed.

Lemma X7_witness :
  exists s h v,
    session (S iterations)
      [SetWindowStart (moment 2010 5 27); SetWindowEnd (moment 2010 5 2)]
      = Some (s, h) /\
    read_state h s = Some v /\
    v = foldl apply_command initial_value
          [SetWindowStart (moment 2010 5 27); SetWindowEnd (moment 2010 5 2)] /\
    points v = expected_points /\
    length (points v) = iterations.
Proof.
  apply (X7_points_never_filtered (S iterations)).
  apply Nat.lt_succ_diag_r.
Defined.

(** X8: every window with [dateFrom] not before [RANGE_MIN] and [dateTo]
    not after [RANGE_MAX] can be reached from the initial state, with two
    commands; the two dates need not be in order, and [dateFrom] may lie
    after [RANGE_MAX] as [dateTo] may lie before [RANGE_MIN]. *)
Theorem X8_every_one_sided_window_reachable (fuel : nat) (a b : Z) :
  (iterations < fuel)%nat ->
  DATE_RANGE_MIN_VALUE <= a ->
  b <= DATE_RANGE_MAX_VALUE ->
  exists s h,
    session fuel [SetWindowStart a; SetWindowEnd b] = Some (s, h) /\
    reachable s h /\
    read_state h s = Some (mkState a b expected_points).
Proof.
  intros Hfuel Ha Hb.
  destruct (session_refines fuel [SetWindowStart a; SetWindowEnd b] Hfuel)
    as (s0 & h0 & es & s & h & _ & _ & _ & _ & Hses & Hv & _).
  exists s, h. split; [exact Hses|]. split; [eexists _, _; exact Hses|].
  rewrite Hv. cbn [foldl]. rewrite apply_start_accepted by done.
  by rewrite apply_end_accepted by done.
Qed.

Lemma X8_witness :
  exists s h,
    session (S iterations)
      [SetWindowStart (moment 2011 1 1); SetWindowEnd (moment 2009 1 1)]
      = Some (s, h) /\
    reachable s h /\
    read_state h s = Some (mkState (moment 2011 1 1) (moment 2009 1 1) expected_points).
Proof.
  apply (X8_every_one_sided_window_reachable (S iterations)).
  - apply Nat.lt_succ_diag_r.
  - apply Z.leb_le. reflexivity.
  - apply Z.leb_le. reflexivity.
Defined.

End GraphSequences.

(** * The objects and values of the generated series *)

Module GraphSeries.
Import Graph GraphFacts.

Lemma series_cells_length base n t : length (series_cells base n t) = (2 * n)%nat.
Proof.
  revert base t. induction n as [|n IH]; intros base t; [done|].
  cbn [series_cells length]. rewrite IH. lia.
Qed.

Lemma series_refs_fmap base n :
  series_refs base n = (fun i => base + 2 * i + 1)%nat <$> seq 0 n.
Proof.
  revert base. induction n as [|n IH]; intros base; [done|].
  cbn [series_refs seq fmap list_fmap]. f_equal; [lia|].
  rewrite IH, <- fmap_S_seq, <- list_fmap_compose.
  apply list_fmap_ext. intros i x _. cbn. lia.
Qed.

Lemma series_cells_lookup base n t (i : nat) :
  (i < n)%nat ->
  series_cells base n t !! (2 * i)%nat
    = Some (OMoment (t + Z.of_nat i * STEP_MS)) /\
  series_cells base n t !! (2 * i + 1)%nat
    = Some (OPoint (base + 2 * i)%nat
                   (value (sample (t + Z.of_nat i * STEP_MS)))).
Proof.
  revert base t i. induction n as [|n IH]; intros base t i Hi; [lia|].
  destruct i as [|i]; cbn [series_cells].
  - cbn. rewrite Z.add_0_r, Nat.add_0_r. done.
  - destruct (IH (S (S base)) (add_minutes t SAMPLES_EVERY_MINUTE) i) as [H0 H1];
      [lia|].
    rewrite add_minutes_step in H0, H1.
    replace (t + STEP_MS + Z.of_nat i * STEP_MS) with (t + Z.of_nat (S i) * STEP_MS)
      in H0, H1 by lia.
    replace (S (S base) + 2 * i)%nat with (base + 2 * S i)%nat in H1 by lia.
    replace (2 * S i)%nat with (S (S (2 * i))) at 1 by lia.
    replace (2 * S i + 1)%nat with (S (S (2 * i + 1))) by lia.
    split; [exact H0 | exact H1].
Qed.

(** The loop in closed form: what it returns and what it has allocated. *)
Lemma generate_closed n :
  forall fuel t res (h : heap),
    stops_after n t -> (n < fuel)%nat ->
    generate fuel t res h =
      Some (res ++ series_refs (length h) n, h ++ series_cells (length h) n t).
Proof.
  induction n as [|n IH]; intros fuel t res h Hstop Hfuel;
    (destruct fuel as [|fuel]; [lia|]); cbn [generate].
  - destruct Hstop as [_ Hend]. rewrite isBefore_false by lia.
    cbn [series_refs series_cells]. by rewrite !app_nil_r.
  - rewrite isBefore_true by (destruct Hstop as [Hin _]; specialize (Hin 0); lia).
    unfold mbind, M_bind. rewrite !new_eq.
    rewrite IH by (by apply stops_after_prev || lia).
    rewrite !snoc_length, <- !app_assoc. done.
Qed.

Lemma omap_fmap_Some {A B} (f : A -> option B) (g : A -> B) (l : list A) :
  (forall x, x ∈ l -> f x = Some (g x)) -> omap f l = g <$> l.
Proof.
  induction l as [|x l IH]; intros Hf; [done|].
  cbn. rewrite (Hf x) by apply list_elem_of_here. cbn. f_equal.
  apply IH. intros y Hy. apply Hf. by apply list_elem_of_further.
Qed.

(** The store after the generator has run in [h]. *)
Lemma randomDateTimePoints_closed fuel (h : heap) :
  (iterations < fuel)%nat ->
  randomDateTimePoints fuel h =
    Some ((length h + 2 * iterations)%nat,
          (h ++ series_cells (length h) iterations DATE_RANGE_MIN_VALUE)
            ++ [OArray (series_refs (length h) iterations)]).
Proof.
  intros Hfuel. unfold randomDateTimePoints, mbind, M_bind.
  rewrite (generate_closed iterations) by (apply stops_after_iterations || done).
  rewrite new_eq, length_app, series_cells_length. done.
Qed.

Lemma owned_by_generated_points (h : heap) n t :
  owned_by_points
    ((h ++ series_cells (length h) n t) ++ [OArray (series_refs (length h) n)])
    (length h + 2 * n)%nat
  = (length h + 2 * n)%nat
      :: ((fun i => length h + 2 * i + 1)%nat <$> seq 0 n)
      ++ ((fun i => length h + 2 * i)%nat <$> seq 0 n).
Proof.
  unfold owned_by_points, get_array.
  replace (length h + 2 * n)%nat with (length (h ++ series_cells (length h) n t))
    at 1 by (rewrite length_app, series_cells_length; done).
  rewrite lookup_fresh, series_refs_fmap. f_equal. f_equal.
  assert (Hcomp : forall (f : nat -> option nat) (g : nat -> nat) (l : list nat),
             omap f (g <$> l) = omap (f ∘ g) l).
  { intros f g l. induction l as [|x l IH]; [done|]. cbn. by rewrite IH. }
  rewrite Hcomp.
  apply omap_fmap_Some. intros i Hi. apply elem_of_seq in Hi.
  unfold compose, get_point.
  rewrite <- app_assoc, lookup_app_r by lia.
  replace (length h + 2 * i + 1 - length h)%nat with (2 * i + 1)%nat by lia.
  rewrite lookup_app_l by (rewrite series_cells_length; lia).
  destruct (series_cells_lookup (length h) n t i) as [_ ->]; [lia|]. done.
Qed.

(** X9: every point the generator returns is an object of its own with a
    time moment of its own: the array, its points and their moments are
    [2 * iterations + 1] pairwise different objects, none of which was in
    the store before, and the store it started in is left as it was. *)
Theorem X9_generated_objects_fresh_and_distinct (fuel : nat) (h : heap) :
  (iterations < fuel)%nat ->
  exists arr h',
    randomDateTimePoints fuel h = Some (arr, h') /\
    h `prefix_of` h' /\
    NoDup (owned_by_points h' arr) /\
    length (owned_by_points h' arr) = (2 * iterations + 1)%nat /\
    (forall l, l ∈ owned_by_points h' arr -> (length h <= l < length h')%nat).
Proof.
  intros Hfuel. eexists _, _.
  split; [by apply randomDateTimePoints_closed|].
  rewrite owned_by_generated_points.
  assert (Hlen : length ((h ++ series_cells (length h) iterations DATE_RANGE_MIN_VALUE)
                           ++ [OArray (series_refs (length h) iterations)])
                 = (length h + 2 * iterations + 1)%nat).
  { rewrite !length_app, series_cells_length. cbn. lia. }
  rewrite Hlen. split_and!.
  - rewrite <- app_assoc. by apply prefix_app_r.
  - apply NoDup_cons. split.
    + rewrite elem_of_app, !list_elem_of_fmap.
      intros [(i & Hi & Hin)|(i & Hi & Hin)]; apply elem_of_seq in Hin; lia.
    + apply NoDup_app. split_and!.
      * apply NoDup_fmap_2_strong; [|apply NoDup_seq]. intros i j _ _ Hij. lia.
      * intros l (i & -> & _)%list_elem_of_fmap (j & Hj & _)%list_elem_of_fmap. lia.
      * apply NoDup_fmap_2_strong; [|apply NoDup_seq]. intros i j _ _ Hij. lia.
  - cbn [length]. rewrite length_app, !length_fmap, !length_seq. lia.
  - intros l Hl. apply elem_of_cons in Hl as [->|Hl]; [lia|].
    apply elem_of_app in Hl as [Hl|Hl];
      apply list_elem_of_fmap in Hl as (i & -> & Hin); apply elem_of_seq in Hin; lia.
Qed.

Lemma X9_witness :
  exists arr h',
    randomDateTimePoints (S iterations) (example_heap 0) = Some (arr, h') /\
    example_heap 0 `prefix_of` h' /\
    NoDup (owned_by_points h' arr) /\
    length (owned_by_points h' arr) = (2 * iterations + 1)%nat /\
    (forall l, l ∈ owned_by_points h' arr ->
               (length (example_heap 0) <= l < length h')%nat).
Proof.
  apply (X9_generated_objects_fresh_and_distinct (S iterations)).
  apply Nat.lt_succ_diag_r.
Defined.

Lemma expected_points_lookup (k : nat) p :
  expected_points !! k = Some p ->
  (k < iterations)%nat /\ p = sample (DATE_RANGE_MIN_VALUE + Z.of_nat k * STEP_MS).
Proof.
  intros Hk.
  assert (Hlt : (k < iterations)%nat).
  { apply lookup_lt_Some in Hk. unfold expected_points in Hk.
    by rewrite series_length in Hk. }
  split; [done|]. unfold expected_points in Hk.
  rewrite series_lookup in Hk by done. by injection Hk as <-.
Qed.

(** X10: the series is in strictly ascending order of time; every time
    lies in the range, [RANGE_MIN] included and [RANGE_MAX] excluded; the
    last point is the one five minutes before [RANGE_MAX]. *)
Theorem X10_series_times_ascending (fuel : nat) (h : heap) :
  (iterations < fuel)%nat ->
  exists pts,
    generates fuel h pts /\
    (forall (i j : nat) p q,
       pts !! i = Some p -> pts !! j = Some q -> (i < j)%nat -> time p < time q) /\
    (forall p, p ∈ pts -> DATE_RANGE_MIN_VALUE <= time p < DATE_RANGE_MAX_VALUE) /\
    last pts =
      Some (mkPoint (DATE_RANGE_MAX_VALUE - SAMPLES_EVERY_MINUTE * MS_PER_MINUTE)
                    (180 * 23 + 55)).
Proof.
  intros Hfuel. exists expected_points.
  split; [by apply randomDateTimePoints_total|]. split_and!.
  - intros i j p q [_ ->]%expected_points_lookup [_ ->]%expected_points_lookup Hij.
    cbn [sample time]. rewrite step_ms_value. lia.
  - intros p (k & Hk)%list_elem_of_lookup_1.
    apply expected_points_lookup in Hk as [Hlt ->].
    rewrite iterations_value in Hlt. cbn [sample time].
    rewrite range_min_value, range_max_value, step_ms_value. lia.
  - assert (Hl : length expected_points = iterations) by apply series_length.
    rewrite last_lookup, Hl. unfold expected_points. rewrite series_lookup by (rewrite iterations_value; lia).
    replace (Z.of_nat (Init.Nat.pred iterations)) with 7775
      by (rewrite iterations_value; lia).
    reflexivity.
Qed.

Lemma X10_witness :
  exists pts,
    generates (S iterations) [] pts /\
    (forall (i j : nat) p q,
       pts !! i = Some p -> pts !! j = Some q -> (i < j)%nat -> time p < time q) /\
    (forall p, p ∈ pts -> DATE_RANGE_MIN_VALUE <= time p < DATE_RANGE_MAX_VALUE) /\
    last pts =
      Some (mkPoint (DATE_RANGE_MAX_VALUE - SAMPLES_EVERY_MINUTE * MS_PER_MINUTE)
                    (180 * 23 + 55)).
Proof.
  apply (X10_series_times_ascending (S iterations) []).
  apply Nat.lt_succ_diag_r.
Defined.

(** On the sampling grid the hour field advances every twelve samples. *)
Lemma hours_on_grid k :
  hours (DATE_RANGE_MIN_VALUE + k * STEP_MS) = (k / 12) mod 24.
Proof.
  rewrite range_min_value, step_ms_value. unfold hours, MS_PER_HOUR.
  replace (1272672000000 + k * 300000) with (300000 * (k + 353520 * 12)) by lia.
  change 3600000 with (300000 * 12).
  rewrite Z.div_mul_cancel_l, Z.div_add by lia.
  replace (k / 12 + 353520) with (k / 12 + 14730 * 24) by lia.
  by rewrite Z.mod_add by lia.
Qed.

End GraphSeries.

(** * Sequences of actions of randomDotsScreenReducer *)

Module RandomDotsSequences.
Import RandomDots.

Section Reducer.
Variables WIDTH HEIGHT TEXT : string.

Local Abbreviation reducer := (randomDotsScreenReducer WIDTH HEIGHT TEXT).
Local Abbreviation run := (run_actions WIDTH HEIGHT TEXT).

Lemma run_actions_cons state a actions :
  run state (a :: actions) = run (reducer (Some state) a) actions.
Proof. reflexivity. Qed.

Lemma run_actions_snoc state actions a :
  run state (actions ++ [a]) = reducer (Some (run state actions)) a.
Proof. unfold run_actions. by rewrite foldl_snoc. Qed.

Lemma reducer_keeps_other state action k :
  k <> "width" -> k <> "height" -> k <> "text" ->
  reducer (Some state) action !! k = state !! k.
Proof.
  intros Hw Hh Ht. unfold randomDotsScreenReducer. cbn [default from_option id].
  repeat case_decide; rewrite ?lookup_insert_ne by done; done.
Qed.

(** X12: no sequence of actions, of whatever types and contents, changes a
    property other than [width], [height] and [text]; the colour of the
    screen in particular stays what it was. *)
Theorem X12_other_properties_never_change
    (state : jsobj) (actions : list jsobj) (k : string) :
  k <> "width" -> k <> "height" -> k <> "text" ->
  run state actions !! k = state !! k.
Proof.
  intros Hw Hh Ht. revert state.
  induction actions as [|a actions IH]; intros state; [done|].
  rewrite run_actions_cons, IH. by apply reducer_keeps_other.
Qed.

(** X13: the reducer never removes a property, and the only properties it
    can add are [width], [height] and [text]. *)
Theorem X13_properties_never_removed (state : jsobj) (actions : list jsobj) :
  dom state ⊆ dom (run state actions) /\
  dom (run state actions) ⊆ dom state ∪ {["width"; "height"; "text"]}.
Proof.
  assert (Hstep : forall (st a : jsobj),
             dom st ⊆ dom (reducer (Some st) a) /\
             dom (reducer (Some st) a) ⊆ dom st ∪ {["width"; "height"; "text"]}).
  { intros st a. unfold randomDotsScreenReducer. cbn [default from_option id].
    repeat case_decide; rewrite ?dom_insert_L; split;
      intros k Hk; rewrite ?elem_of_union, ?elem_of_list_to_set in *;
      rewrite ?elem_of_cons, ?elem_of_singleton in *; tauto. }
  revert state. induction actions as [|a actions IH]; intros state.
  - cbn. split; [done|]. apply union_subseteq_l.
  - rewrite run_actions_cons. destruct (IH (reducer (Some state) a)) as [Hlo Hhi].
    destruct (Hstep state a) as [Hlo1 Hhi1]. split.
    + by etrans.
    + etrans; [exact Hhi|]. apply union_least; [exact Hhi1|].
      apply union_subseteq_r.
Qed.

(** X14: the reducer is idempotent: the same action handed in a second
    time leaves the state the first one made. *)
Theorem X14_reducer_idempotent (state action : jsobj) :
  reducer (Some (reducer (Some state) action)) action
    = reducer (Some state) action.
Proof.
  unfold randomDotsScreenReducer. cbn [default from_option id].
  repeat case_decide; rewrite ?insert_insert_eq; done.
Qed.

(** X15: two actions of different type commute: each of them writes a
    property of its own, or none. *)
Theorem X15_actions_of_different_type_commute (state a b : jsobj) :
  prop a "type" <> prop b "type" ->
  reducer (Some (reducer (Some state) a)) b
    = reducer (Some (reducer (Some state) b)) a.
Proof.
  intros Hne. unfold randomDotsScreenReducer. cbn [default from_option id].
  repeat case_decide; try congruence; try done;
    by apply insert_insert_ne.
Qed.

(** X16: a recognised action whose payload property is missing is not
    refused: it overwrites the property of the state with [undefined]. *)
Theorem X16_missing_payload_writes_undefined (state action : jsobj) :
  prop action "type" = JString WIDTH ->
  action !! "width" = None ->
  reducer (Some state) action !! "width" = Some JUndefined.
Proof.
  intros Hty Hw. unfold randomDotsScreenReducer. cbn [default from_option id].
  rewrite decide_True by done. rewrite lookup_insert_eq.
  unfold prop. by rewrite Hw.
Qed.

(** The three constants name three different action types. *)
Hypothesis types_differ : WIDTH <> HEIGHT /\ WIDTH <> TEXT /\ HEIGHT <> TEXT.

Lemma reducer_field state action ty field :
  (ty, field) ∈ [(WIDTH, "width"); (HEIGHT, "height"); (TEXT, "text")] ->
  reducer (Some state) action !! field =
    if decide (prop action "type" = JString ty)
    then Some (prop action field) else state !! field.
Proof.
  destruct types_differ as (Hwh & Hwt & Hht). intros Hin.
  apply elem_of_cons in Hin as [[= -> ->]|Hin];
    [|apply elem_of_cons in Hin as [[= -> ->]|Hin];
      [|apply list_elem_of_singleton in Hin as [= -> ->]]];
    unfold randomDotsScreenReducer; cbn [default from_option id];
    repeat case_decide; try congruence;
    rewrite ?lookup_insert_eq, ?lookup_insert_ne by done; done.
Qed.

(** X17: after any sequence of actions, [width] is the width of the last
    set-width action of the sequence, or that of the start state when
    there is none; likewise [height] and [text]. *)
Theorem X17_last_action_of_a_type_wins
    (state : jsobj) (actions : list jsobj) (ty field : string) :
  (ty, field) ∈ [(WIDTH, "width"); (HEIGHT, "height"); (TEXT, "text")] ->
  run state actions !! field =
    match last_with_type ty actions with
    | Some a => Some (prop a field)
    | None => state !! field
    end.
Proof.
  intros Hin. unfold last_with_type.
  induction actions as [|a actions IH] using rev_ind; [done|].
  rewrite run_actions_snoc, (reducer_field _ _ ty field Hin), filter_app.
  rewrite filter_cons, filter_nil.
  case_decide.
  - by rewrite last_snoc.
  - by rewrite app_nil_r.
Qed.
End Reducer.

Lemma X12_witness :
  run_actions "BLUE_SCR_SET_WIDTH" "BLUE_SCR_SET_HEIGHT" "BLUE_SCR_SET_TEXT"
    initialState [example_action; example_action] !! "color"
  = initialState !! "color".
Proof.
  apply (X12_other_properties_never_change
           "BLUE_SCR_SET_WIDTH" "BLUE_SCR_SET_HEIGHT" "BLUE_SCR_SET_TEXT");
    discriminate.
Defined.

Lemma X15_witness :
  randomDotsScreenReducer "BLUE_SCR_SET_WIDTH" "BLUE_SCR_SET_HEIGHT" "BLUE_SCR_SET_TEXT"
    (Some (randomDotsScreenReducer "BLUE_SCR_SET_WIDTH" "BLUE_SCR_SET_HEIGHT"
             "BLUE_SCR_SET_TEXT" (Some initialState) example_action))
    example_height_action
  = randomDotsScreenReducer "BLUE_SCR_SET_WIDTH" "BLUE_SCR_SET_HEIGHT" "BLUE_SCR_SET_TEXT"
      (Some (randomDotsScreenReducer "BLUE_SCR_SET_WIDTH" "BLUE_SCR_SET_HEIGHT"
               "BLUE_SCR_SET_TEXT" (Some initialState) example_height_action))
      example_action.
Proof.
  apply (X15_actions_of_different_type_commute
           "BLUE_SCR_SET_WIDTH" "BLUE_SCR_SET_HEIGHT" "BLUE_SCR_SET_TEXT").
  discriminate.
Defined.

Lemma X16_witness :
  randomDotsScreenReducer "BLUE_SCR_SET_WIDTH" "BLUE_SCR_SET_HEIGHT" "BLUE_SCR_SET_TEXT"
    (Some initialState) bare_width_action !! "width"
  = Some JUndefined.
Proof.
  apply (X16_missing_payload_writes_undefined
           "BLUE_SCR_SET_WIDTH" "BLUE_SCR_SET_HEIGHT" "BLUE_SCR_SET_TEXT").
  - reflexivity.
  - reflexivity.
Defined.

Lemma X17_witness :
  run_actions "BLUE_SCR_SET_WIDTH" "BLUE_SCR_SET_HEIGHT" "BLUE_SCR_SET_TEXT"
    initialState [example_height_action; example_action; bare_width_action]
    !! "height"
  = match last_with_type "BLUE_SCR_SET_HEIGHT"
            [example_height_action; example_action; bare_width_action] with
    | Some a => Some (prop a "height")
    | None => initialState !! "height"
    end.
Proof.
  apply (X17_last_action_of_a_type_wins
           "BLUE_SCR_SET_WIDTH" "BLUE_SCR_SET_HEIGHT" "BLUE_SCR_SET_TEXT").
  - split; [discriminate | split; discriminate].
  - apply list_elem_of_further, list_elem_of_here.
Defined.

End RandomDotsSequences.

(** * The generated series and the time zone *)

Module ZonedFacts.
Import Graph GraphFacts.

Section AnyZone.
Variable z : Zoned.Zone.

Lemma zoned_series_length n t : length (Zoned.series z n t) = n.
Proof. revert t. induction n as [|n IH]; intros t; cbn; [done|]. by rewrite IH. Qed.

Lemma zoned_series_lookup n t (k : nat) :
  (k < n)%nat ->
  Zoned.series z n t !! k = Some (Zoned.sample z (t + Z.of_nat k * STEP_MS)).
Proof.
  revert t k. induction n as [|n IH]; intros t k Hk; [lia|].
  destruct k as [|k]; cbn [Zoned.series].
  - cbn. f_equal. f_equal. lia.
  - cbn [lookup list_lookup]. rewrite IH by lia. rewrite add_minutes_step.
    f_equal. f_equal. lia.
Qed.

Lemma zoned_stops_after_unique n m t :
  Zoned.stops_after z n t -> Zoned.stops_after z m t -> n = m.
Proof.
  unfold Zoned.stops_after. rewrite step_ms_value. intros [Hn1 Hn2] [Hm1 Hm2].
  destruct (Nat.lt_trichotomy n m) as [Hlt|[Heq|Hgt]]; [|done|].
  - specialize (Hm1 (Z.of_nat n)). lia.
  - specialize (Hn1 (Z.of_nat m)). lia.
Qed.

Lemma zoned_stops_after_next n t :
  t < Zoned.DATE_RANGE_MAX_VALUE z ->
  Zoned.stops_after z n (t + STEP_MS) -> Zoned.stops_after z (S n) t.
Proof.
  unfold Zoned.stops_after. rewrite step_ms_value. intros Ht [H1 H2]. split.
  - intros k Hk. destruct (decide (k = 0)) as [->|Hne]; [lia|].
    specialize (H1 (k - 1)). lia.
  - lia.
Qed.

Lemma zoned_stops_after_prev n t :
  Zoned.stops_after z (S n) t -> Zoned.stops_after z n (t + STEP_MS).
Proof.
  unfold Zoned.stops_after. rewrite step_ms_value. intros [H1 H2]. split.
  - intros k Hk. specialize (H1 (k + 1)). lia.
  - lia.
Qed.

Lemma zoned_reads_round (h : heap) t res vs :
  reads h res vs ->
  reads ((h ++ [OMoment t])
           ++ [OPoint (length h) (180 * Zoned.hours z t + Zoned.minutes z t)])
        (res ++ [length (h ++ [OMoment t])])
        (vs ++ [Zoned.sample z t]).
Proof.
  intros Hr. apply Forall2_app.
  - eapply reads_ext; [|done]. rewrite <- app_assoc. by apply prefix_app_r.
  - constructor; [|constructor].
    unfold read_point, get_point, get_moment. rewrite lookup_fresh. cbn.
    rewrite <- app_assoc. cbn. by rewrite lookup_fresh.
Qed.

Lemma zoned_generate_sound fuel :
  forall t res (h : heap) res' h' vs,
    Zoned.generate z fuel t res h = Some (res', h') ->
    reads h res vs ->
    exists n,
      h `prefix_of` h' /\ reads h' res' (vs ++ Zoned.series z n t) /\
      Zoned.stops_after z n t.
Proof.
  induction fuel as [|fuel IH]; intros t res h res' h' vs Hrun Hr; [done|].
  cbn [Zoned.generate] in Hrun.
  destruct (isBefore t (Zoned.DATE_RANGE_MAX_VALUE z)) eqn:Hb.
  - unfold mbind, M_bind in Hrun. rewrite !new_eq in Hrun.
    apply (IH _ _ _ _ _ (vs ++ [Zoned.sample z t])) in Hrun
      as (n & Hpre & Hreads & Hstop); [|by apply zoned_reads_round].
    exists (S n). split_and!.
    + etrans; [|exact Hpre]. rewrite <- app_assoc. by apply prefix_app_r.
    + cbn [Zoned.series]. by rewrite cons_middle, app_assoc.
    + apply zoned_stops_after_next; [by apply Z.ltb_lt | done].
  - injection Hrun as <- <-. exists 0%nat. split_and!; [done | | ].
    + cbn [Zoned.series]. by rewrite app_nil_r.
    + apply Z.ltb_ge in Hb. unfold Zoned.stops_after. split; [intros k Hk|]; lia.
Qed.

Lemma zoned_generate_total n :
  forall fuel t res (h : heap),
    Zoned.stops_after z n t -> (n < fuel)%nat ->
    is_Some (Zoned.generate z fuel t res h).
Proof.
  induction n as [|n IH]; intros fuel t res h Hstop Hfuel;
    (destruct fuel as [|fuel]; [lia|]); cbn [Zoned.generate].
  - destruct Hstop as [_ Hend]. rewrite isBefore_false by lia. by eexists.
  - rewrite isBefore_true by (destruct Hstop as [Hin _]; specialize (Hin 0); lia).
    unfold mbind, M_bind. rewrite !new_eq.
    apply IH; [by apply zoned_stops_after_prev | lia].
Qed.

(** With fuel for one more test than there are rounds, the generator
    returns the series of that many points, whatever the store. *)
Lemma zoned_generates n fuel (h : heap) :
  Zoned.stops_after z n (Zoned.DATE_RANGE_MIN_VALUE z) -> (n < fuel)%nat ->
  Zoned.generates z fuel h (Zoned.series z n (Zoned.DATE_RANGE_MIN_VALUE z)).
Proof.
  intros Hstop Hfuel. unfold Zoned.generates, Zoned.randomDateTimePoints.
  destruct (zoned_generate_total n fuel (Zoned.DATE_RANGE_MIN_VALUE z) [] h Hstop Hfuel)
    as [[res h1] Hgen].
  exists (length h1), (h1 ++ [OArray res]). unfold mbind, M_bind. rewrite Hgen.
  split; [reflexivity|].
  apply (zoned_generate_sound _ _ _ _ _ _ []) in Hgen as (m & Hpre & Hreads & Hstop');
    [|by apply Forall2_nil].
  rewrite (zoned_stops_after_unique _ _ _ Hstop' Hstop) in Hreads.
  apply read_points_reads. exists res. split.
  - unfold get_array. by rewrite lookup_fresh.
  - eapply reads_ext; [|exact Hreads]. by apply prefix_app_r.
Qed.
(** The loop leaves after [rounds z] rounds, in any zone. *)
Lemma rounds_stops :
  Zoned.stops_after z (Zoned.rounds z) (Zoned.DATE_RANGE_MIN_VALUE z).
Proof.
  unfold Zoned.stops_after, Zoned.rounds. rewrite step_ms_value.
  set (lo := Zoned.DATE_RANGE_MIN_VALUE z). set (hi := Zoned.DATE_RANGE_MAX_VALUE z).
  pose proof (Z.div_mod (hi - lo + 300000 - 1) 300000) as Hdm.
  pose proof (Z.mod_pos_bound (hi - lo + 300000 - 1) 300000) as Hr.
  set (q := (hi - lo + 300000 - 1) / 300000) in *.
  set (r := (hi - lo + 300000 - 1) mod 300000) in *.
  destruct (Z.le_gt_cases q 0) as [Hq|Hq].
  - replace (Z.to_nat q) with 0%nat by lia. split; [intros k Hk|]; lia.
  - rewrite Z2Nat.id by lia. split; [intros k Hk|]; lia.
Qed.
End AnyZone.

(** ** The wall-clock model is the zone with offset zero *)

Lemma zoned_generate_utc fuel :
  forall t res (h : heap),
    Zoned.generate (Zoned.fixed_offset 0) fuel t res h = generate fuel t res h.
Proof.
  induction fuel as [|fuel IH]; intros t res h; [done|].
  cbn [Zoned.generate generate].
  change (Zoned.DATE_RANGE_MAX_VALUE (Zoned.fixed_offset 0))
    with (moment 2010 5 28 - 0).
  rewrite Z.sub_0_r. change (moment 2010 5 28) with DATE_RANGE_MAX_VALUE.
  destruct (isBefore t DATE_RANGE_MAX_VALUE); [|done].
  unfold Zoned.hours, Zoned.minutes, Zoned.local_time. cbn [Zoned.offset_at Zoned.fixed_offset].
  rewrite Z.add_0_r. unfold mbind, M_bind. rewrite !new_eq. apply IH.
Qed.

Lemma zoned_randomDateTimePoints_utc fuel (h : heap) :
  Zoned.randomDateTimePoints (Zoned.fixed_offset 0) fuel h
    = randomDateTimePoints fuel h.
Proof.
  unfold Zoned.randomDateTimePoints, randomDateTimePoints, mbind, M_bind.
  change (Zoned.DATE_RANGE_MIN_VALUE (Zoned.fixed_offset 0))
    with (moment 2010 5 1 - 0).
  rewrite Z.sub_0_r. change (moment 2010 5 1) with DATE_RANGE_MIN_VALUE.
  by rewrite zoned_generate_utc.
Qed.

(** ** A zone with one offset over the range *)

Lemma one_offset_ends z :
  Zoned.one_offset_over_range z ->
  exists c,
    Zoned.DATE_RANGE_MIN_VALUE z = DATE_RANGE_MIN_VALUE - c /\
    Zoned.DATE_RANGE_MAX_VALUE z = DATE_RANGE_MAX_VALUE - c /\
    forall u, DATE_RANGE_MIN_VALUE - c <= u < DATE_RANGE_MAX_VALUE - c ->
              Zoned.offset_at z u = c.
Proof.
  intros (c & Hlo & Hhi & Hin). exists c.
  unfold Zoned.DATE_RANGE_MIN_VALUE, Zoned.DATE_RANGE_MAX_VALUE, Zoned.moment in *.
  rewrite Hlo, Hhi in *. done.
Qed.

Lemma one_offset_stops z :
  Zoned.one_offset_over_range z ->
  Zoned.stops_after z iterations (Zoned.DATE_RANGE_MIN_VALUE z).
Proof.
  intros (c & Hlo & Hhi & _)%one_offset_ends. unfold Zoned.stops_after.
  rewrite Hlo, Hhi, iterations_value, Z2Nat.id, range_min_value, range_max_value,
    step_ms_value by lia.
  split; [intros k Hk|]; lia.
Qed.

Lemma one_offset_rounds z :
  Zoned.one_offset_over_range z -> Zoned.rounds z = iterations.
Proof.
  intros Hz.
  exact (zoned_stops_after_unique z _ _ _ (rounds_stops z) (one_offset_stops z Hz)).
Qed.

(** In such a zone the local clock at the sampling times is the wall-clock
    time of the model in [Graph]. *)
Lemma one_offset_local_time z k :
  Zoned.one_offset_over_range z ->
  0 <= k < 7776 ->
  Zoned.local_time z (Zoned.DATE_RANGE_MIN_VALUE z + k * STEP_MS)
    = DATE_RANGE_MIN_VALUE + k * STEP_MS.
Proof.
  intros (c & Hlo & Hhi & Hin)%one_offset_ends Hk. unfold Zoned.local_time.
  rewrite Hlo, Hin; [lia|].
  rewrite range_min_value, range_max_value, step_ms_value. lia.
Qed.

Lemma one_offset_sample z (k : nat) :
  Zoned.one_offset_over_range z ->
  (k < iterations)%nat ->
  value (Zoned.sample z (Zoned.DATE_RANGE_MIN_VALUE z + Z.of_nat k * STEP_MS))
    = value (sample (DATE_RANGE_MIN_VALUE + Z.of_nat k * STEP_MS)).
Proof.
  intros Hz Hk. rewrite iterations_value in Hk.
  cbn [Zoned.sample sample value]. unfold Zoned.hours, Zoned.minutes.
  by rewrite one_offset_local_time by (done || lia).
Qed.

(** ** A zone with a clock change inside the range *)

Lemma casablanca_range :
  Zoned.DATE_RANGE_MIN_VALUE Zoned.casablanca_2010 = 1272672000000 /\
  Zoned.DATE_RANGE_MAX_VALUE Zoned.casablanca_2010 = 1275001200000.
Proof. split; reflexivity. Qed.

Lemma casablanca_stops :
  Zoned.stops_after Zoned.casablanca_2010 (Z.to_nat 7764)
    (Zoned.DATE_RANGE_MIN_VALUE Zoned.casablanca_2010).
Proof.
  destruct casablanca_range as [Hlo Hhi]. unfold Zoned.stops_after.
  rewrite Hlo, Hhi, Z2Nat.id, step_ms_value by lia.
  split; [intros k Hk|]; lia.
Qed.

(** Where the clocks are put forward inside the range the loop runs an
    hour's worth of rounds less, and from the change on the hour field is
    one ahead: the point of 2010-05-02, 288 samples after the first, has
    value 180, not 0. *)
Lemma C5_counterexample :
  exists pts,
    Zoned.generates Zoned.casablanca_2010 (S iterations) [] pts /\
    Z.of_nat (length pts) = 7764 /\
    Z.of_nat (length pts) <> 7776 /\
    pts !! 0%nat = Some (mkPoint (Zoned.moment Zoned.casablanca_2010 2010 5 1) 0) /\
    pts !! 288%nat = Some (mkPoint (Zoned.moment Zoned.casablanca_2010 2010 5 2) 180).
Proof.
  exists (Zoned.series Zoned.casablanca_2010 (Z.to_nat 7764)
            (Zoned.DATE_RANGE_MIN_VALUE Zoned.casablanca_2010)).
  split.
  { apply zoned_generates; [apply casablanca_stops|].
    rewrite iterations_value. lia. }
  rewrite zoned_series_length, Z2Nat.id by lia.
  split; [reflexivity|]. split; [lia|].
  rewrite !zoned_series_lookup by lia. split; reflexivity.
Qed.

(** C5, amended: in any time zone the generator returns, whatever the
    store it starts in, always the same sequence: the point number [k] has
    time [RANGE_MIN + k * 5 minutes] and value [180 * hours + minutes] of
    that time on the local clock, for exactly the [k] whose time is strictly
    before [RANGE_MAX]; their number is ceil((RANGE_MAX - RANGE_MIN) / step).
    Where the zone keeps one UTC offset from 2010-05-01 to 2010-05-28 there
    are 7776 points, the first being (2010-05-01T00:00, 0) and the second
    (2010-05-01T00:05, 5). *)
Theorem C5_series_by_zone
    (z : Zoned.Zone) (fuel1 fuel2 : nat) (h1 h2 : heap) :
  (Zoned.rounds z < fuel1)%nat ->
  (Zoned.rounds z < fuel2)%nat ->
  exists pts,
    Zoned.generates z fuel1 h1 pts /\
    Zoned.generates z fuel2 h2 pts /\
    Zoned.stops_after z (length pts) (Zoned.DATE_RANGE_MIN_VALUE z) /\
    (forall k : nat, (k < length pts)%nat ->
       pts !! k =
         Some (let t := Zoned.DATE_RANGE_MIN_VALUE z
                        + Z.of_nat k * (SAMPLES_EVERY_MINUTE * MS_PER_MINUTE) in
               mkPoint t (180 * Zoned.hours z t + Zoned.minutes z t))) /\
    length pts
      = Z.to_nat ((Zoned.DATE_RANGE_MAX_VALUE z - Zoned.DATE_RANGE_MIN_VALUE z
                   + STEP_MS - 1) / STEP_MS) /\
    (Zoned.one_offset_over_range z ->
     Z.of_nat (length pts) = 7776 /\
     pts !! 0%nat = Some (mkPoint (Zoned.moment z 2010 5 1) 0) /\
     pts !! 1%nat = Some (mkPoint (Zoned.moment z 2010 5 1 + 5 * MS_PER_MINUTE) 5)).
Proof.
  intros Hf1 Hf2.
  exists (Zoned.series z (Zoned.rounds z) (Zoned.DATE_RANGE_MIN_VALUE z)).
  pose proof (rounds_stops z) as Hstop.
  split; [by apply zoned_generates|]. split; [by apply zoned_generates|].
  rewrite zoned_series_length. split; [exact Hstop|].
  split; [intros k Hk; by apply zoned_series_lookup|].
  split; [reflexivity|]. intros Hz.
  rewrite (one_offset_rounds z Hz).
  split; [by rewrite iterations_value, Z2Nat.id|].
  assert (H0 : (0 < iterations)%nat) by (rewrite iterations_value; lia).
  assert (H1 : (1 < iterations)%nat) by (rewrite iterations_value; lia).
  rewrite !zoned_series_lookup by done.
  pose proof (one_offset_sample z 0 Hz H0) as Hv0.
  pose proof (one_offset_sample z 1 Hz H1) as Hv1.
  cbn [Zoned.sample value] in Hv0, Hv1.
  unfold Zoned.sample. rewrite Hv0, Hv1. split.
  - replace (Zoned.DATE_RANGE_MIN_VALUE z + Z.of_nat 0 * STEP_MS)
      with (Zoned.moment z 2010 5 1)
      by (unfold Zoned.DATE_RANGE_MIN_VALUE; lia).
    reflexivity.
  - replace (Zoned.DATE_RANGE_MIN_VALUE z + Z.of_nat 1 * STEP_MS)
      with (Zoned.moment z 2010 5 1 + 5 * MS_PER_MINUTE)
      by (unfold Zoned.DATE_RANGE_MIN_VALUE; rewrite step_ms_value;
          unfold MS_PER_MINUTE; lia).
    reflexivity.
Qed.

Lemma C5_witness :
  exists pts,
    Zoned.generates (Zoned.fixed_offset (2 * MS_PER_HOUR)) (S iterations) [] pts /\
    Zoned.generates (Zoned.fixed_offset (2 * MS_PER_HOUR)) (S (S iterations))
      [OMoment 0] pts /\
    Z.of_nat (length pts) = 7776 /\
    pts !! 0%nat
      = Some (mkPoint (Zoned.moment (Zoned.fixed_offset (2 * MS_PER_HOUR)) 2010 5 1) 0) /\
    pts !! 1%nat
      = Some (mkPoint (Zoned.moment (Zoned.fixed_offset (2 * MS_PER_HOUR)) 2010 5 1
                       + 5 * MS_PER_MINUTE) 5).
Proof.
  destruct (C5_series_by_zone (Zoned.fixed_offset (2 * MS_PER_HOUR))
              (S iterations) (S (S iterations)) [] [OMoment 0])
    as (pts & Hg1 & Hg2 & _ & _ & _ & Hone).
  - apply Nat.ltb_lt. vm_compute. reflexivity.
  - apply Nat.ltb_lt. vm_compute. reflexivity.
  - exists pts. split; [exact Hg1|]. split; [exact Hg2|].
    apply Hone. exists (2 * MS_PER_HOUR).
    split; [reflexivity|]. split; [reflexivity|]. intros u _. reflexivity.
Defined.

(** X11: where the local time zone keeps one UTC offset over the range,
    the value of the point number [k] is
    [180 * ((k / 12) mod 24) + 5 * (k mod 12)]: the same daily profile on
    every day, so that two points a day (288 samples) apart have the same
    value. *)
Theorem X11_series_values_daily_profile (z : Zoned.Zone) (fuel : nat) (h : heap) :
  Zoned.one_offset_over_range z ->
  (iterations < fuel)%nat ->
  exists pts,
    Zoned.generates z fuel h pts /\
    (forall (k : nat) p,
       pts !! k = Some p ->
       value p = 180 * ((Z.of_nat k / 12) mod 24) + 5 * (Z.of_nat k mod 12)) /\
    (forall (k : nat) p q,
       pts !! k = Some p -> pts !! (k + 288)%nat = Some q -> value q = value p).
Proof.
  intros Hz Hfuel.
  exists (Zoned.series z iterations (Zoned.DATE_RANGE_MIN_VALUE z)).
  split; [apply zoned_generates; [by apply one_offset_stops | done]|].
  assert (Hval : forall (k : nat) p,
             Zoned.series z iterations (Zoned.DATE_RANGE_MIN_VALUE z) !! k = Some p ->
             value p = 180 * ((Z.of_nat k / 12) mod 24) + 5 * (Z.of_nat k mod 12)).
  { intros k p Hk.
    assert (Hlt : (k < iterations)%nat).
    { apply lookup_lt_Some in Hk. by rewrite zoned_series_length in Hk. }
    rewrite zoned_series_lookup in Hk by done. injection Hk as <-.
    rewrite one_offset_sample by done. cbn [sample value].
    by rewrite GraphSeries.hours_on_grid, minutes_on_grid. }
  split; [exact Hval|].
  intros k p q Hp Hq. rewrite (Hval _ _ Hp), (Hval _ _ Hq).
  replace (Z.of_nat (k + 288)) with (Z.of_nat k + 24 * 12) by lia.
  rewrite Z.div_add, Z.mod_add by lia.
  replace (Z.of_nat k / 12 + 24) with (Z.of_nat k / 12 + 1 * 24) by lia.
  by rewrite Z.mod_add by lia.
Qed.

Lemma X11_witness :
  exists pts,
    Zoned.generates (Zoned.fixed_offset (2 * MS_PER_HOUR)) (S iterations) [] pts /\
    (forall (k : nat) p,
       pts !! k = Some p ->
       value p = 180 * ((Z.of_nat k / 12) mod 24) + 5 * (Z.of_nat k mod 12)) /\
    (forall (k : nat) p q,
       pts !! k = Some p -> pts !! (k + 288)%nat = Some q -> value q = value p).
Proof.
  apply (X11_series_values_daily_profile (Zoned.fixed_offset (2 * MS_PER_HOUR))
           (S iterations) []).
  - exists (2 * MS_PER_HOUR). split; [reflexivity|]. split; [reflexivity|].
    intros u _. reflexivity.
  - apply Nat.lt_succ_diag_r.
Defined.

End ZonedFacts.
